(** * Feedback_api.js: the skills-feedback generator

    A shallow embedding of [SkillsFeedback] (src/Feedback_api.js) and of its
    two local functions [validateInput] and [parseFeedbackResponse], together
    with the part of the JavaScript runtime they call: strings of UTF-16 code
    units, [trim], [split], [toUpperCase], [includes], regular-expression
    [replace] and [split], IEEE-754 numbers and their rendering, and the
    outbound [fetch] seen as an oracle with a trace of the calls made. *)

From Stdlib Require Import List NArith ZArith QArith Qround Qabs Bool Ascii String Lia.
From Stdlib Require Import Permutation DecimalString.
From Stdlib Require Import Floats.SpecFloat.
Import ListNotations.

Set Implicit Arguments.
Close Scope Q_scope.

(** ** JavaScript strings *)

Module JS.

Local Open Scope N_scope.

(** A string is a sequence of UTF-16 code units. *)
Definition codeUnit := N.
Definition jsstring := list codeUnit.

(** The literals of the source are ASCII: one code unit per character. *)
Definition str (s : string) : jsstring := map N_of_ascii (list_ascii_of_string s).

Definition isEmpty (s : jsstring) : bool :=
  match s with [] => true | _ :: _ => false end.

Fixpoint strEq (a b : jsstring) : bool :=
  match a, b with
  | [], [] => true
  | x :: a', y :: b' => (x =? y)%N && strEq a' b'
  | _, _ => false
  end.

(** [WhiteSpace] and [LineTerminator] of ECMA-262, the code units that
    [String.prototype.trim] strips: TAB, LF, VT, FF, CR, SP, NBSP, the
    space separators of the BMP, LS, PS and the byte order mark. *)
Definition isWhiteSpace (c : codeUnit) : bool :=
  ((9 <=? c) && (c <=? 13) || (c =? 32) || (c =? 160) || (c =? 5760)
   || (8192 <=? c) && (c <=? 8202) || (c =? 8232) || (c =? 8233)
   || (c =? 8239) || (c =? 8287) || (c =? 12288) || (c =? 65279))%N.

Fixpoint trimStart (s : jsstring) : jsstring :=
  match s with
  | [] => []
  | c :: s' => if isWhiteSpace c then trimStart s' else s
  end.

Definition trimEnd (s : jsstring) : jsstring := rev (trimStart (rev s)).

Definition trim (s : jsstring) : jsstring := trimEnd (trimStart s).

(** [s.split(sep)] for a separator of one code unit; the empty string
    splits into one empty piece. *)
Fixpoint split (sep : codeUnit) (s : jsstring) : list jsstring :=
  match s with
  | [] => [[]]
  | c :: s' =>
      if (c =? sep)%N then [] :: split sep s'
      else match split sep s' with
           | piece :: pieces => (c :: piece) :: pieces
           | [] => [[c]]
           end
  end.

Fixpoint join (sep : jsstring) (l : list jsstring) : jsstring :=
  match l with
  | [] => []
  | [x] => x
  | x :: l' => x ++ sep ++ join sep l'
  end.

Fixpoint startsWith (p s : jsstring) : bool :=
  match p, s with
  | [], _ => true
  | _ :: _, [] => false
  | a :: p', b :: s' => (a =? b)%N && startsWith p' s'
  end.

(** [s.includes(needle)]. *)
Fixpoint includes (s needle : jsstring) : bool :=
  startsWith needle s
  || match s with
     | [] => false
     | _ :: s' => includes s' needle
     end.

Definition isAsciiLower (c : codeUnit) : bool := ((97 <=? c) && (c <=? 122))%N.
Definition isDigit (c : codeUnit) : bool := ((48 <=? c) && (c <=? 57))%N.

(** [String.prototype.toUpperCase] maps each code point to its full
    upper-case form. The table is exact on every code point whose upper-case
    form contains an ASCII code unit: the letters a-z and the seventeen
    others listed (sharp s, dotless i, long s, the fi/fl/st ligatures, ...).
    Every other code unit is kept: its real upper-case form is a non-empty
    run of non-ASCII code units, as it is here, so that the ASCII substrings
    of the result, the only thing the program looks at, are the same. *)
Definition upperCodeUnit (c : codeUnit) : jsstring :=
  if isAsciiLower c then [c - 32]
  else if c =? 223 then [83; 83]          (* U+00DF -> SS *)
  else if c =? 305 then [73]              (* U+0131 -> I *)
  else if c =? 329 then [700; 78]         (* U+0149 -> U+02BC N *)
  else if c =? 383 then [83]              (* U+017F -> S *)
  else if c =? 496 then [74; 780]         (* U+01F0 -> J U+030C *)
  else if c =? 7830 then [72; 817]        (* U+1E96 -> H U+0331 *)
  else if c =? 7831 then [84; 776]        (* U+1E97 -> T U+0308 *)
  else if c =? 7832 then [87; 778]        (* U+1E98 -> W U+030A *)
  else if c =? 7833 then [89; 778]        (* U+1E99 -> Y U+030A *)
  else if c =? 7834 then [65; 702]        (* U+1E9A -> A U+02BE *)
  else if c =? 64256 then [70; 70]        (* U+FB00 -> FF *)
  else if c =? 64257 then [70; 73]        (* U+FB01 -> FI *)
  else if c =? 64258 then [70; 76]        (* U+FB02 -> FL *)
  else if c =? 64259 then [70; 70; 73]    (* U+FB03 -> FFI *)
  else if c =? 64260 then [70; 70; 76]    (* U+FB04 -> FFL *)
  else if c =? 64261 then [83; 84]        (* U+FB05 -> ST *)
  else if c =? 64262 then [83; 84]        (* U+FB06 -> ST *)
  else [c].

Definition toUpperCase (s : jsstring) : jsstring := flat_map upperCodeUnit s.

(** *** Regular expressions

    The fragment of the pattern language the source uses, all with the [i]
    flag and without the [u] flag: literal characters, [\d], sequence,
    alternation and the greedy [+]. *)
Inductive regex : Type :=
| REps
| RChar (c : codeUnit)
| RDigit
| RSeq (r1 r2 : regex)
| RAlt (r1 r2 : regex)
| RPlus (r : regex).

(** [Canonicalize] of ECMA-262 for an ignore-case pattern without the
    unicode flag: a code unit is replaced by its upper-case form when that
    form is a single code unit, except that a non-ASCII code unit is never
    mapped to an ASCII one. On ASCII this is a-z to A-Z; the patterns of the
    source are ASCII, so that only whether the result is a given ASCII code
    unit matters, and non-ASCII code units are kept. *)
Definition canonicalize (c : codeUnit) : codeUnit :=
  if isAsciiLower c then c - 32 else c.

(** The iterations of a greedy [+] whose body matches as [step] says: after
    one match of the body, first one more iteration, then none. An iteration
    that consumes nothing is rejected, as the engine's empty check does,
    which bounds the number of iterations by the input's length. *)
Fixpoint plusIter (step : jsstring -> list jsstring) (n : nat) (s : jsstring)
  {struct n} : list jsstring :=
  match n with
  | O => []
  | S n' =>
      flat_map
        (fun s' =>
           if (List.length s' <? List.length s)%nat
           then plusIter step n' s' ++ [s'] else [])
        (step s)
  end.

(** The backtracking matcher: all the ways [r] matches a prefix of [s], as
    the inputs left after the match, in the order the engine tries them. *)
Fixpoint rmatch (r : regex) (s : jsstring) {struct r} : list jsstring :=
  match r with
  | REps => [s]
  | RChar c =>
      match s with
      | x :: s' => if (canonicalize x =? canonicalize c)%N then [s'] else []
      | [] => []
      end
  | RDigit =>
      match s with
      | x :: s' => if isDigit x then [s'] else []
      | [] => []
      end
  | RSeq r1 r2 => flat_map (rmatch r2) (rmatch r1 s)
  | RAlt r1 r2 => rmatch r1 s ++ rmatch r2 s
  | RPlus r1 => plusIter (rmatch r1) (S (List.length s)) s
  end.

(** One match attempt anchored at the start of [s]: what is left of [s]
    after the first successful match. *)
Definition execAt (r : regex) (s : jsstring) : option jsstring :=
  hd_error (rmatch r s).

Definition literal (s : jsstring) : regex := fold_right (fun c r => RSeq (RChar c) r) REps s.

(** [s.replace(re, repl)] for a pattern without the [g] flag: the leftmost
    match is replaced, the rest of the string is kept. *)
Fixpoint replace (r : regex) (repl : jsstring) (s : jsstring) : jsstring :=
  match execAt r s with
  | Some rest => repl ++ rest
  | None =>
      match s with
      | [] => []
      | c :: s' => c :: replace r repl s'
      end
  end.

(** The loop of [RegExp.prototype[Symbol.split]], without a limit and for a
    pattern without capture groups. [acc] is the substring from [p] to [q],
    [s] the input from [q]. A match that ends at [p] (an empty match right
    after the previous one) only advances [q]; every other match closes the
    piece. *)
Fixpoint splitLoop (fuel : nat) (r : regex) (acc s : jsstring) : list jsstring :=
  match fuel with
  | O => []
  | S fuel' =>
      match s with
      | [] => [acc]
      | c :: s' =>
          match execAt r s with
          | None => splitLoop fuel' r (acc ++ [c]) s'
          | Some rest =>
              if (List.length rest =? List.length s)%nat && isEmpty acc
              then splitLoop fuel' r (acc ++ [c]) s'
              else acc :: splitLoop fuel' r [] rest
          end
      end
  end.

(** [s.split(re)]. The empty string gives no piece when the pattern matches
    it and one empty piece otherwise. Two steps of the loop at least move
    [q] by one, hence the fuel. *)
Definition splitRegex (r : regex) (s : jsstring) : list jsstring :=
  match s with
  | [] => match execAt r [] with Some _ => [] | None => [[]] end
  | _ :: _ => splitLoop (2 * List.length s + 1)%nat r [] s
  end.

(** [a || b] on strings: the empty string is the only falsy one. *)
Definition orElse (a b : jsstring) : jsstring := if isEmpty a then b else a.

End JS.

Import JS.

Declare Scope js_scope.
Delimit Scope js_scope with js.
Notation "a ||| b" := (orElse a b) (at level 50, left associativity) : js_scope.

(** ** The response parser *)

Record FeedbackResult : Type := mkFeedback {
  topStrengths : jsstring;
  practicalExperience : jsstring;
  domainKnowledge : jsstring
}.

Inductive Category : Type := TopStrengths | PracticalExperience | DomainKnowledge.

Definition NEWLINE : codeUnit := 10%N.

Definition LBL_TOP_U := str "TOP_STRENGTHS:".
Definition LBL_TOP_S := str "TOP STRENGTHS:".
Definition LBL_PRACTICAL_U := str "PRACTICAL_EXPERIENCE:".
Definition LBL_PRACTICAL_S := str "PRACTICAL EXPERIENCE:".
Definition LBL_DOMAIN_U := str "DOMAIN_KNOWLEDGE:".
Definition LBL_DOMAIN_S := str "DOMAIN KNOWLEDGE:".

Definition DEFAULT_TOP := str "Strong technical skills identified from assessment.".
Definition DEFAULT_PRACTICAL := str "Hands-on experience demonstrated through skill ratings.".
Definition DEFAULT_DOMAIN := str "Domain expertise with areas for continued development.".

(** [/\d+\.|TOP|PRACTICAL|DOMAIN/i] *)
Definition SECTION_RE : regex :=
  RAlt (RSeq (RPlus RDigit) (RChar 46%N))
       (RAlt (literal (str "TOP"))
             (RAlt (literal (str "PRACTICAL")) (literal (str "DOMAIN")))).

Definition isBlank (s : jsstring) : bool := isEmpty (trim s).

(** [feedbackText.split('\n').filter(line => line.trim() !== '')] *)
Definition nonBlankLines (feedbackText : jsstring) : list jsstring :=
  filter (fun line => negb (isBlank line)) (split NEWLINE feedbackText).

(** The conditions of the [if] / [else if] chain of the line loop. *)
Definition hasLabel (c : Category) (line : jsstring) : bool :=
  match c with
  | TopStrengths =>
      includes (toUpperCase line) LBL_TOP_U || includes (toUpperCase line) LBL_TOP_S
  | PracticalExperience =>
      includes (toUpperCase line) LBL_PRACTICAL_U
      || includes (toUpperCase line) LBL_PRACTICAL_S
  | DomainKnowledge =>
      includes (toUpperCase line) LBL_DOMAIN_U
      || includes (toUpperCase line) LBL_DOMAIN_S
  end.

(** The right-hand sides of its assignments. *)
Definition extract (c : Category) (line : jsstring) : jsstring :=
  match c with
  | TopStrengths =>
      trim (replace (literal LBL_TOP_S) [] (replace (literal LBL_TOP_U) [] line))
  | PracticalExperience =>
      trim (replace (literal LBL_PRACTICAL_S) []
              (replace (literal LBL_PRACTICAL_U) [] line))
  | DomainKnowledge =>
      trim (replace (literal LBL_DOMAIN_S) [] (replace (literal LBL_DOMAIN_U) [] line))
  end.

(** The three [let] variables of the parser. *)
Definition ScanState : Type := FeedbackResult.

Definition initialScan : ScanState := mkFeedback [] [] [].

Definition setField (c : Category) (v : jsstring) (st : ScanState) : ScanState :=
  match c with
  | TopStrengths => mkFeedback v (practicalExperience st) (domainKnowledge st)
  | PracticalExperience => mkFeedback (topStrengths st) v (domainKnowledge st)
  | DomainKnowledge => mkFeedback (topStrengths st) (practicalExperience st) v
  end.

Definition getField (c : Category) (st : ScanState) : jsstring :=
  match c with
  | TopStrengths => topStrengths st
  | PracticalExperience => practicalExperience st
  | DomainKnowledge => domainKnowledge st
  end.

(** The body of [for (const line of lines)]. *)
Definition scanLine (st : ScanState) (line : jsstring) : ScanState :=
  if hasLabel TopStrengths line then
    setField TopStrengths (extract TopStrengths line) st
  else if hasLabel PracticalExperience line then
    setField PracticalExperience (extract PracticalExperience line) st
  else if hasLabel DomainKnowledge line then
    setField DomainKnowledge (extract DomainKnowledge line) st
  else st.

Definition scanLines (lines : list jsstring) : ScanState :=
  fold_left scanLine lines initialScan.

(** [feedbackText.split(/\d+\.|TOP|PRACTICAL|DOMAIN/i)
      .filter(section => section.trim() !== '')] *)
Definition sections (feedbackText : jsstring) : list jsstring :=
  filter (fun section => negb (isBlank section)) (splitRegex SECTION_RE feedbackText).

Definition allUnset (st : ScanState) : bool :=
  isEmpty (topStrengths st) && isEmpty (practicalExperience st)
  && isEmpty (domainKnowledge st).

(** The [if (!topStrengths && !practicalExperience && !domainKnowledge)]
    block. *)
Definition fallback (feedbackText : jsstring) (st : ScanState) : ScanState :=
  if allUnset st then
    match sections feedbackText with
    | s0 :: s1 :: s2 :: _ => mkFeedback (trim s0) (trim s1) (trim s2)
    | _ => mkFeedback DEFAULT_TOP DEFAULT_PRACTICAL DEFAULT_DOMAIN
    end
  else st.

Definition parseFeedbackResponse (feedbackText : jsstring) : FeedbackResult :=
  let st := fallback feedbackText (scanLines (nonBlankLines feedbackText)) in
  {| topStrengths := (topStrengths st ||| DEFAULT_TOP)%js;
     practicalExperience := (practicalExperience st ||| DEFAULT_PRACTICAL)%js;
     domainKnowledge := (domainKnowledge st ||| DEFAULT_DOMAIN)%js |}.

(** ** Numbers

    A JavaScript number is an IEEE-754 binary64 value: [spec_float] with a
    53-bit significand. *)

Module Num.

Definition number := spec_float.
Definition prec : Z := 53.
Definition emax : Z := 1024.

Definition ofZ (z : Z) : number := binary_normalize prec emax z 0 false.
Definition add : number -> number -> number := SFadd prec emax.
Definition div : number -> number -> number := SFdiv prec emax.

(** [a < b], [a > b], [a <= b], [a >= b]: all false on NaN. *)
Definition lt (a b : number) : bool := SFltb a b.
Definition gt (a b : number) : bool := SFltb b a.
Definition le (a b : number) : bool := SFleb a b.
Definition ge (a b : number) : bool := SFleb b a.

(** [ToBoolean]: zero and NaN are the falsy numbers. *)
Definition truthy (x : number) : bool :=
  match x with
  | S754_zero _ | S754_nan => false
  | _ => true
  end.

Definition decimal (z : Z) : jsstring :=
  str (NilZero.string_of_uint (N.to_uint (Z.to_N z))).

Definition pow10 (n : Z) : Q :=
  if (0 <=? n)%Z then inject_Z (10 ^ n) else Qinv (inject_Z (10 ^ (- n))).
Definition pow2 (n : Z) : Q :=
  if (0 <=? n)%Z then inject_Z (2 ^ n) else Qinv (inject_Z (2 ^ (- n))).

Definition Qltb (a b : Q) : bool := negb (Qle_bool b a).

(** The real a finite float [m * 2^e] stands for. *)
Definition valueOf (m : positive) (e : Z) : Q := Qmult (inject_Z (Zpos m)) (pow2 e).

(** The decimal exponent [n] of a positive real: [10^(n-1) <= x < 10^n]. *)
Fixpoint decimalExponent (fuel : nat) (n : Z) (x : Q) : Z :=
  match fuel with
  | O => n
  | S fuel' => if Qltb x (pow10 n) then n else decimalExponent fuel' (n + 1) x
  end.

(** The reals that round to [m * 2^e]: between the midpoints to its two
    neighbours, the midpoints included when [m] is even. The neighbour below
    a power of two is half as far. *)
Definition roundsTo (m : positive) (e : Z) (q : Q) : bool :=
  let x := valueOf m e in
  let below :=
    if (Zpos m =? 2 ^ (prec - 1))%Z && (3 - emax - prec <? e)%Z
    then pow2 (e - 2) else pow2 (e - 1) in
  let lo := Qminus x below in
  let hi := Qplus x (pow2 (e - 1)) in
  if Z.even (Zpos m) then Qle_bool lo q && Qle_bool q hi
  else Qltb lo q && Qltb q hi.

(** The digit strings of [k] digits that denote [m * 2^e], as pairs of the
    integer [s] and the exponent [n], the value being [s * 10^(n-k)]. *)
Definition candidates (m : positive) (e : Z) (n0 k : Z) : list (Z * Z) :=
  let x := valueOf m e in
  flat_map
    (fun n =>
       let scale := pow10 (n - k) in
       let s0 := Qfloor (Qdiv x scale) in
       filter
         (fun sn =>
            (10 ^ (k - 1) <=? fst sn)%Z && (fst sn <? 10 ^ k)%Z
            && roundsTo m e (Qmult (inject_Z (fst sn)) scale))
         [(s0, n); ((s0 + 1)%Z, n)])
    [n0; (n0 + 1)%Z].

Definition closer (x : Q) (k : Z) (a b : Z * Z) : Z * Z :=
  let d sn := Qabs (Qminus (Qmult (inject_Z (fst sn)) (pow10 (snd sn - k))) x) in
  if Qltb (d b) (d a) then b
  else if Qltb (d a) (d b) then a
  else if Z.even (fst a) then a else b.

(** The shortest digit string that denotes the number, and among those of
    that length the closest: the [n], [k] and [s] of [Number::toString]. *)
Fixpoint shortest (fuel : nat) (m : positive) (e : Z) (n0 k : Z) : Z * Z * Z :=
  match fuel with
  | O => (Qfloor (Qdiv (valueOf m e) (pow10 (n0 - k))), n0, k)
  | S fuel' =>
      match candidates m e n0 k with
      | [] => shortest fuel' m e n0 (k + 1)
      | c :: cs =>
          let best := fold_left (closer (valueOf m e) k) cs c in
          (fst best, snd best, k)
      end
  end.

Definition zeros (n : Z) : jsstring := repeat 48%N (Z.to_nat n).

(** [Number::toString] in radix 10. *)
Definition toString (x : number) : jsstring :=
  match x with
  | S754_nan => str "NaN"
  | S754_zero _ => str "0"
  | S754_infinity s => (if s then str "-" else []) ++ str "Infinity"
  | S754_finite sign m e =>
      let n0 := decimalExponent 700 (-330) (valueOf m e) in
      let '(s, n, k) := shortest 17 m e n0 1 in
      let digits := decimal s in
      (if sign then str "-" else [])
      ++ (if (k <=? n)%Z && (n <=? 21)%Z then digits ++ zeros (n - k)
          else if (0 <? n)%Z && (n <=? 21)%Z then
            firstn (Z.to_nat n) digits ++ str "." ++ skipn (Z.to_nat n) digits
          else if (-6 <? n)%Z && (n <=? 0)%Z then str "0." ++ zeros (- n) ++ digits
          else
            let exponent :=
              str "e" ++ (if (n - 1 <? 0)%Z then str "-" else str "+")
              ++ decimal (Z.abs (n - 1)) in
            if (k =? 1)%Z then digits ++ exponent
            else firstn 1 digits ++ str "." ++ skipn 1 digits ++ exponent)
  end.

(** [Number.prototype.toFixed(f)] for [0 <= f <= 100]: the integer [n] for
    which [n / 10^f] is closest to the number, the larger one on a tie. *)
Definition toFixed (f : Z) (x : number) : jsstring :=
  match x with
  | S754_nan | S754_infinity _ => toString x
  | S754_zero _ | S754_finite _ _ _ =>
      let '(sign, ax) :=
        match x with
        | S754_finite sign m e => (sign, valueOf m e)
        | _ => (false, inject_Z 0)
        end in
      if Qle_bool (pow10 21) ax then toString x
      else
        let n := Qfloor (Qplus (Qmult ax (pow10 f)) (Qmake 1 2)) in
        let m := decimal n in
        let k := Z.of_nat (List.length m) in
        let m := if (k <=? f)%Z then zeros (f + 1 - k) ++ m else m in
        let k := Z.of_nat (List.length m) in
        (if sign then str "-" else [])
        ++ (if (f =? 0)%Z then m
            else firstn (Z.to_nat (k - f)) m ++ str "." ++ skipn (Z.to_nat (k - f)) m)
  end.

End Num.

(** ** Values, exceptions and property access *)

#[warnings="-register-all"]
Inductive JSValue : Type :=
| JUndefined
| JNull
| JBool (b : bool)
| JNumber (n : Num.number)
| JString (s : jsstring)
| JArray (elems : list JSValue)
| JObject (props : list (jsstring * JSValue)).

Inductive Exception : Type :=
| TypeError
| SyntaxError
| FetchError
| Error (message : jsstring).

(** How an evaluation ends: with a value, or with a thrown exception. *)
Inductive Completion (A : Type) : Type :=
| Normal (a : A)
| Throw (e : Exception).

Arguments Normal {A} a.
Arguments Throw {A} e.

Definition bind {A B : Type} (c : Completion A) (k : A -> Completion B) : Completion B :=
  match c with
  | Normal a => k a
  | Throw e => Throw e
  end.

Notation "x <- c ;; k" := (bind c (fun x => k))
  (at level 61, c at next level, right associativity).

Inductive TypeTag : Type := TyUndefined | TyObject | TyBoolean | TyNumber | TyString.

Definition typeof (v : JSValue) : TypeTag :=
  match v with
  | JUndefined => TyUndefined
  | JNull | JArray _ | JObject _ => TyObject
  | JBool _ => TyBoolean
  | JNumber _ => TyNumber
  | JString _ => TyString
  end.

Definition isType (t : TypeTag) (v : JSValue) : bool :=
  match t, typeof v with
  | TyUndefined, TyUndefined | TyObject, TyObject | TyBoolean, TyBoolean
  | TyNumber, TyNumber | TyString, TyString => true
  | _, _ => false
  end.

Definition toBoolean (v : JSValue) : bool :=
  match v with
  | JUndefined | JNull => false
  | JBool b => b
  | JNumber n => Num.truthy n
  | JString s => negb (isEmpty s)
  | JArray _ | JObject _ => true
  end.

Definition isArray (v : JSValue) : bool :=
  match v with JArray _ => true | _ => false end.

Fixpoint lookup (k : jsstring) (props : list (jsstring * JSValue)) : option JSValue :=
  match props with
  | [] => None
  | (k', v) :: props' => if strEq k k' then Some v else lookup k props'
  end.

(** A property name that is an array index: [0], or digits without a
    leading zero. *)
Definition arrayIndex (k : jsstring) : option nat :=
  match k with
  | [] => None
  | c :: k' =>
      if forallb isDigit k && (negb (c =? 48)%N || isEmpty k')
      then Some (fold_left (fun n d => (10 * n + N.to_nat (d - 48))%nat) k O)
      else None
  end.

(** [v.k] and [v[k]]. Reading a property of [undefined] or [null] throws;
    arrays and strings have their elements and [length]; every other
    property of a value that is not an object reads as [undefined] (the
    program reads [name], [rating], [error], [message], [choices], [0] and
    [content], none of which a prototype defines). *)
Definition getProp (v : JSValue) (k : jsstring) : Completion JSValue :=
  match v with
  | JUndefined | JNull => Throw TypeError
  | JObject props =>
      Normal (match lookup k props with Some x => x | None => JUndefined end)
  | JArray elems =>
      Normal (match arrayIndex k with
              | Some i => nth i elems JUndefined
              | None =>
                  if strEq k (str "length")
                  then JNumber (Num.ofZ (Z.of_nat (List.length elems)))
                  else JUndefined
              end)
  | JString s =>
      Normal (match arrayIndex k with
              | Some i =>
                  match nth_error s i with
                  | Some c => JString [c]
                  | None => JUndefined
                  end
              | None =>
                  if strEq k (str "length")
                  then JNumber (Num.ofZ (Z.of_nat (List.length s)))
                  else JUndefined
              end)
  | JBool _ | JNumber _ => Normal JUndefined
  end.

(** [ToString] of a value that holds no object with a [toString] property
    of its own. *)
Fixpoint toStringJS (v : JSValue) : jsstring :=
  match v with
  | JUndefined => str "undefined"
  | JNull => str "null"
  | JBool b => if b then str "true" else str "false"
  | JNumber n => Num.toString n
  | JString s => s
  | JArray elems =>
      join (str ",")
        (map (fun e =>
                match e with
                | JUndefined | JNull => []
                | _ => toStringJS e
                end) elems)
  | JObject _ => str "[object Object]"
  end.

(** [ToString], as a template literal applies it. An object is converted
    by its [toString] method: the inherited one gives [[object Object]]; a
    [toString] property of its own, which in parsed JSON is never a
    function, leaves no method that returns a primitive, and the conversion
    throws. An array converts its elements from left to right. *)
Fixpoint toStringOrThrow (v : JSValue) : Completion jsstring :=
  match v with
  | JArray elems =>
      parts <- (fix each (l : list JSValue) : Completion (list jsstring) :=
                  match l with
                  | [] => Normal []
                  | e :: l' =>
                      part <- match e with
                              | JUndefined | JNull => Normal []
                              | _ => toStringOrThrow e
                              end ;;
                      rest <- each l' ;;
                      Normal (part :: rest)
                  end) elems ;;
      Normal (join (str ",") parts)
  | JObject props =>
      match lookup (str "toString") props with
      | Some _ => Throw TypeError
      | None => Normal (str "[object Object]")
      end
  | _ => Normal (toStringJS v)
  end.

(** ** The input validator *)

Record Validation : Type := mkValidation {
  isValid : bool;
  message : JSValue
}.

Definition invalid (msg : string) : Validation := mkValidation false (JString (str msg)).

(** The body of [for (const skill of skills)], and the [return] after it. *)
Fixpoint validateSkills (skills : list JSValue) : Completion Validation :=
  match skills with
  | [] => Normal (mkValidation true JUndefined)
  | skill :: rest =>
      name <- getProp skill (str "name") ;;
      if negb (toBoolean name) || negb (isType TyString name)
      then Normal (invalid "Each skill must have a valid name.")
      else
        rating <- getProp skill (str "rating") ;;
        if negb (toBoolean rating) || negb (isType TyNumber rating)
           || match rating with
              | JNumber r => Num.lt r (Num.ofZ 1) || Num.gt r (Num.ofZ 5)
              | _ => false
              end
        then Normal (invalid "Each skill must have a rating between 1 and 5.")
        else validateSkills rest
  end.

(** [validateInput]. The operands of each [||] that are evaluated only on
    an array, a string or a number are written on that case. *)
Definition validateInput (skills overallComment : JSValue) : Completion Validation :=
  if negb (toBoolean skills) || negb (isArray skills)
     || match skills with JArray [] => true | _ => false end
  then Normal (invalid "Invalid input. Please provide an array of skills.")
  else if negb (toBoolean overallComment) || negb (isType TyString overallComment)
          || match overallComment with JString c => isEmpty (trim c) | _ => false end
  then Normal (invalid "Please provide an overall comment about your skills.")
  else match skills with
       | JArray elems => validateSkills elems
       | _ => Throw TypeError
       end.

(** ** The prompt builder

    It runs after the validator has accepted the input, on skills that are
    objects with a string [name] and a number [rating]. *)

Record Skill : Type := mkSkill {
  name : jsstring;
  rating : Num.number
}.

Definition viewSkill (v : JSValue) : option Skill :=
  match v with
  | JObject props =>
      match lookup (str "name") props, lookup (str "rating") props with
      | Some (JString n), Some (JNumber r) => Some (mkSkill n r)
      | _, _ => None
      end
  | _ => None
  end.

Fixpoint viewSkills (l : list JSValue) : option (list Skill) :=
  match l with
  | [] => Some []
  | v :: l' =>
      match viewSkill v, viewSkills l' with
      | Some sk, Some sks => Some (sk :: sks)
      | _, _ => None
      end
  end.

Definition QUOTE : jsstring := [34%N].

(** [`${index + 1}. ${skill.name} - Rating: ${skill.rating}/5`] *)
Definition skillLine (index : nat) (skill : Skill) : jsstring :=
  Num.toString (Num.add (Num.ofZ (Z.of_nat index)) (Num.ofZ 1))
  ++ str ". " ++ name skill ++ str " - Rating: " ++ Num.toString (rating skill)
  ++ str "/5".

Fixpoint mapIndexed {A B : Type} (f : nat -> A -> B) (index : nat) (l : list A) : list B :=
  match l with
  | [] => []
  | x :: l' => f index x :: mapIndexed f (S index) l'
  end.

Definition skillsText (skills : list Skill) : jsstring :=
  join [NEWLINE] (mapIndexed skillLine 0 skills).

Definition averageRating (skills : list Skill) : jsstring :=
  Num.toFixed 1
    (Num.div (fold_left (fun sum skill => Num.add sum (rating skill)) skills (Num.ofZ 0))
             (Num.ofZ (Z.of_nat (List.length skills)))).

Definition highRatedSkills (skills : list Skill) : nat :=
  List.length (filter (fun skill => Num.ge (rating skill) (Num.ofZ 4)) skills).

Definition lowRatedSkills (skills : list Skill) : nat :=
  List.length (filter (fun skill => Num.le (rating skill) (Num.ofZ 2)) skills).

Definition prompt (skills : list Skill) (overallComment : jsstring) : jsstring :=
  List.concat
    [ str "
    You are an expert career coach and skills development specialist. Analyze the following skills self-assessment and provide feedback in EXACTLY these 3 categories only.

    SKILLS ASSESSMENT:
    ";
      skillsText skills;
      str "

    OVERALL SELF-ASSESSMENT COMMENT:
    ";
      QUOTE;
      overallComment;
      QUOTE;
      str "

    STATISTICAL OVERVIEW:
    - Total Skills Assessed: ";
      Num.toString (Num.ofZ (Z.of_nat (List.length skills)));
      str "
    - Average Rating: ";
      averageRating skills;
      str "/5
    - High Performing Skills (4-5): ";
      Num.toString (Num.ofZ (Z.of_nat (highRatedSkills skills)));
      str "
    - Skills Needing Development (1-2): ";
      Num.toString (Num.ofZ (Z.of_nat (lowRatedSkills skills)));
      str "

    REQUIREMENTS:
    Provide feedback in EXACTLY these 3 categories only:

    1. Top Strengths: Identify the candidate's highest-rated skills and strongest capabilities based on ratings of 4-5. Focus on what they excel at.

    2. Practical Experience: Assess their hands-on experience and real-world application of their skills based on their ratings and overall comment. Focus on verified experience and practical application.

    3. Domain Knowledge: Evaluate their theoretical understanding, industry knowledge, and areas for development based on lower-rated skills and overall assessment. Include both existing domain expertise and development areas.

    Return ONLY these 3 sections with concise, professional feedback for each. Keep each section to 3-4 sentences maximum.DON'T INCLUDE THE NUMBERS IN BETWEEN THE RESPONSE LIKE 5/5 RATED. Do not include any formatting like ** or headers, just the plain text for each section. " ].

(** ** The completion call and [SkillsFeedback] *)

Record Message : Type := mkMessage {
  role : jsstring;
  content : jsstring
}.

(** The arguments of [fetch]; [JSON.stringify] is left unapplied. *)
Record Request : Type := mkRequest {
  url : jsstring;
  method : jsstring;
  contentType : jsstring;
  authorization : jsstring;
  model : jsstring;
  messages : list Message;
  temperature : Num.number;
  max_tokens : Num.number
}.

(** What the program reads of a response; [json] is what [response.json()]
    settles to. *)
Record Response : Type := mkResponse {
  status : Z;
  statusText : jsstring;
  json : Completion JSValue
}.

(** [response.ok]: a status from 200 to 299. *)
Definition ok (r : Response) : bool := (200 <=? status r)%Z && (status r <? 300)%Z.

(** What a run depends on besides its arguments: the environment, whose
    [MISTRAL_API_KEY] is a string or undefined, and the completion
    service. *)
Record World : Type := mkWorld {
  MISTRAL_API_KEY : JSValue;
  fetch : Request -> Completion Response
}.

Inductive Event : Type :=
| CallFetch (request : Request)
| ConsoleError (label : jsstring) (error : Exception).

Definition API_URL : jsstring := str "https://api.mistral.ai/v1/chat/completions".

Definition SYSTEM_CONTENT : jsstring :=
  str "You are an expert career coach. Provide concise feedback in exactly 3 categories. Return plain text without any markdown formatting.".

Definition UNABLE : jsstring := str "Unable to generate feedback at this time.".

Definition completionRequest (w : World) (prompt : jsstring) : Request :=
  {| url := API_URL;
     method := str "POST";
     contentType := str "application/json";
     authorization := str "Bearer " ++ toStringJS (MISTRAL_API_KEY w);
     model := str "mistral-small-latest";
     messages := [mkMessage (str "system") SYSTEM_CONTENT; mkMessage (str "user") prompt];
     temperature := Num.div (Num.ofZ 7) (Num.ofZ 10);
     max_tokens := Num.ofZ 500 |}.

(** The call [parseFeedbackResponse(feedbackText)]: only a string has a
    [split] method to call. *)
Definition callParser (feedbackText : JSValue) : Completion FeedbackResult :=
  match feedbackText with
  | JString text => Normal (parseFeedbackResponse text)
  | _ => Throw TypeError
  end.

Definition feedbackObject (top practical domain : jsstring) : JSValue :=
  JObject [(str "Top_strength", JString top);
           (str "practical_Experience", JString practical);
           (str "DOmain_Knowledge", JString domain)].

(** The [try] block from the line after [fetch]. *)
Definition afterFetch (response : Response) : Completion JSValue :=
  if negb (ok response) then
    errorData <- json response ;;
    error <- getProp errorData (str "error") ;;
    detail <- match error with
              | JUndefined | JNull => Normal JUndefined
              | _ => getProp error (str "message")
              end ;;
    text <- toStringOrThrow (if toBoolean detail then detail
                             else JString (statusText response)) ;;
    Throw (Error (str "Mistral API error: "
                  ++ Num.toString (Num.ofZ (status response)) ++ str " - " ++ text))
  else
    data <- json response ;;
    choices <- getProp data (str "choices") ;;
    choice <- getProp choices (str "0") ;;
    reply <- getProp choice (str "message") ;;
    feedbackText <- getProp reply (str "content") ;;
    parsedFeedback <- callParser feedbackText ;;
    Normal (JObject [(str "success", JBool true);
                     (str "feedback",
                      feedbackObject (topStrengths parsedFeedback)
                                     (practicalExperience parsedFeedback)
                                     (domainKnowledge parsedFeedback))]).

(** The value the [catch] block returns. *)
Definition failureResponse : JSValue :=
  JObject [(str "success", JBool false);
           (str "error", JString (str "Failed to generate feedback"));
           (str "feedback", feedbackObject UNABLE UNABLE UNABLE)].

(** [SkillsFeedback]: the value returned or the exception thrown, and the
    calls made, in order. The two [TypeError] branches after the validator
    stand for inputs it never accepts ([validateInput_typed] below). *)
Definition SkillsFeedback (w : World) (skills overallComment : JSValue)
  : Completion JSValue * list Event :=
  match validateInput skills overallComment with
  | Throw e => (Throw e, [])
  | Normal validation =>
      if negb (isValid validation) then
        (Normal (JObject [(str "success", JBool false);
                          (str "error", message validation)]), [])
      else
        match skills, overallComment with
        | JArray elems, JString comment =>
            match viewSkills elems with
            | Some typed =>
                let request := completionRequest w (prompt typed comment) in
                match (response <- fetch w request ;; afterFetch response) with
                | Normal result => (Normal result, [CallFetch request])
                | Throw error =>
                    (Normal failureResponse,
                     [CallFetch request;
                      ConsoleError (str "Error generating feedback:") error])
                end
            | None => (Throw TypeError, [])
            end
        | _, _ => (Throw TypeError, [])
        end
  end.

(** The requests a run sent to the completion service. *)
Definition fetchCalls (trace : list Event) : list Request :=
  flat_map (fun ev => match ev with CallFetch r => [r] | ConsoleError _ _ => [] end) trace.

(** The prompts among them: the content of each user message. *)
Definition promptsSent (trace : list Event) : list jsstring :=
  flat_map
    (fun r => map content
                (filter (fun m => strEq (role m) (str "user")) (messages r)))
    (fetchCalls trace).

(** ** The data model of the specification *)

(** A Skill: an object with a non-empty string [name] and a number [rating]
    from 1 to 5. *)
Definition validSkill (v : JSValue) : bool :=
  match viewSkill v with
  | Some skill =>
      negb (isEmpty (name skill))
      && Num.le (Num.ofZ 1) (rating skill) && Num.le (rating skill) (Num.ofZ 5)
  | None => false
  end.

(** An AssessmentRequest: a non-empty sequence of Skills and a comment that
    is not empty after trimming. *)
Definition validRequest (skills overallComment : JSValue) : bool :=
  match skills, overallComment with
  | JArray (skill :: rest), JString comment =>
      forallb validSkill (skill :: rest) && negb (isEmpty (trim comment))
  | _, _ => false
  end.

(** ** The fallback split, as the specification words it

    The text is cut at every occurrence of a number followed by a period, or
    of TOP, PRACTICAL or DOMAIN in any letter case, read from left to
    right. *)

Fixpoint dropDigits (s : jsstring) : jsstring :=
  match s with
  | c :: s' => if isDigit c then dropDigits s' else s
  | [] => []
  end.

(** The length of the number and period [s] starts with. *)
Definition numberPeriod (s : jsstring) : option nat :=
  match s with
  | c :: s' =>
      if isDigit c then
        match dropDigits s' with
        | d :: rest => if (d =? 46)%N then Some (List.length s - List.length rest)%nat else None
        | [] => None
        end
      else None
  | [] => None
  end.

Definition sameLetter (a b : codeUnit) : bool :=
  ((a =? b) || isAsciiLower a && (a - 32 =? b) || isAsciiLower b && (b - 32 =? a))%N.

(** The length of [word] when [s] starts with it, in any letter case. *)
Fixpoint wordAt (word s : jsstring) : option nat :=
  match word, s with
  | [], _ => Some O
  | _ :: _, [] => None
  | a :: word', b :: s' =>
      if sameLetter a b then option_map S (wordAt word' s') else None
  end.

Definition delimiterLength (s : jsstring) : option nat :=
  match numberPeriod s with
  | Some n => Some n
  | None =>
      match wordAt (str "TOP") s with
      | Some n => Some n
      | None =>
          match wordAt (str "PRACTICAL") s with
          | Some n => Some n
          | None => wordAt (str "DOMAIN") s
          end
      end
  end.

(** The fragments between the delimiters: [skip] code units of a delimiter
    are still to be passed over, [cur] is the fragment being read. *)
Fixpoint fragmentsFrom (skip : nat) (cur s : jsstring) : list jsstring :=
  match s with
  | [] => [cur]
  | c :: s' =>
      match skip with
      | S k => fragmentsFrom k cur s'
      | O =>
          match delimiterLength s with
          | Some n => cur :: fragmentsFrom (Nat.pred n) [] s'
          | None => fragmentsFrom O (cur ++ [c]) s'
          end
      end
  end.

Definition fragments (text : jsstring) : list jsstring := fragmentsFrom O [] text.

(** ** Vocabulary of the statements *)

Definition categories : list Category := [TopStrengths; PracticalExperience; DomainKnowledge].

(** The two spellings of a category's label. *)
Definition labels (c : Category) : list jsstring :=
  match c with
  | TopStrengths => [LBL_TOP_U; LBL_TOP_S]
  | PracticalExperience => [LBL_PRACTICAL_U; LBL_PRACTICAL_S]
  | DomainKnowledge => [LBL_DOMAIN_U; LBL_DOMAIN_S]
  end.


(** The canned sentence of a category. *)
Definition defaultOf (c : Category) : jsstring :=
  match c with
  | TopStrengths => DEFAULT_TOP
  | PracticalExperience => DEFAULT_PRACTICAL
  | DomainKnowledge => DEFAULT_DOMAIN
  end.

(** The category a line is matched to: the first, in the order of the
    [if] chain, whose label the line contains. *)
Definition firstMatch (line : jsstring) : option Category :=
  find (fun c => hasLabel c line) categories.

Definition sameCategory (a b : Category) : bool :=
  match a, b with
  | TopStrengths, TopStrengths | PracticalExperience, PracticalExperience
  | DomainKnowledge, DomainKnowledge => true
  | _, _ => false
  end.

Definition COLON : codeUnit := 58%N.

(** Plain content: not empty, no white space around it, no colon in it. *)
Definition plain (x : jsstring) : bool :=
  negb (isEmpty x) && strEq (trim x) x && forallb (fun c => negb (c =? COLON)%N) x.

(** A text given line by line. *)
Definition unlines (l : list jsstring) : jsstring := join [NEWLINE] l.

(** The inputs left after one digit, two digits, ..., longest run first:
    the matches of [\d+] in the order the engine tries them. *)
Fixpoint digitTails (s : jsstring) : list jsstring :=
  match s with
  | c :: s' => if isDigit c then digitTails s' ++ [s'] else []
  | [] => []
  end.

(** ** Sample inputs *)

Definition skillObject (n : string) (r : Num.number) : JSValue :=
  JObject [(str "name", JString (str n)); (str "rating", JNumber r)].

Definition sampleSkills : JSValue :=
  JArray [skillObject "Go" (Num.ofZ 5); skillObject "SQL" (Num.ofZ 2)].

Definition sampleComment : JSValue := JString (str "solid").

(** A world whose completion service answers every request the same way. *)
Definition stubbedWorld (key : JSValue) (outcome : Completion Response) : World :=
  mkWorld key (fun _ => outcome).

(** A reply body with the given message text. *)
Definition replyBody (text : jsstring) : JSValue :=
  JObject [(str "choices",
            JArray [JObject [(str "message", JObject [(str "content", JString text)])]])].

Definition labelledReply : Response :=
  mkResponse 200 (str "OK")
    (Normal (replyBody (unlines [str "TOP_STRENGTHS: A"; str "PRACTICAL EXPERIENCE: B";
                                 str "DOMAIN_KNOWLEDGE: C"]))).

Definition unavailable : Response :=
  mkResponse 503 (str "Service Unavailable")
    (Normal (JObject [(str "error", JObject [(str "message", JString (str "overloaded"))])])).

(** ** The HTTP handlers *)

(** What a handler sends: [res.status(...).json(...)], the status being 200
    unless set. *)
Record HttpResponse : Type := mkHttp {
  statusCode : Z;
  body : JSValue
}.

(** The body of the 500 answer; [now] is what [dayjs().utc().format()]
    returns. *)
Definition internalError (now : jsstring) : JSValue :=
  JObject [(str "success", JBool false);
           (str "error", JString (str "Internal server error"));
           (str "createdAt", JObject [(str "$date", JString now)])].

(** [app.post('/skills-feedback', ...)] on the parsed request body. The
    destructuring of [req.body] stands before the [try]: what it throws
    leaves the handler. *)
Definition postSkillsFeedback (w : World) (now : jsstring) (reqBody : JSValue)
  : Completion HttpResponse * list Event :=
  match (skills <- getProp reqBody (str "skills") ;;
         overallComment <- getProp reqBody (str "overallComment") ;;
         Normal (skills, overallComment)) with
  | Throw e => (Throw e, [])
  | Normal (skills, overallComment) =>
      match SkillsFeedback w skills overallComment with
      | (Normal result, trace) => (Normal (mkHttp 200 result), trace)
      | (Throw error, trace) =>
          (Normal (mkHttp 500 (internalError now)),
           trace ++ [ConsoleError (str "API Error:") error])
      end
  end.

(** [app.get('/health', ...)] *)
Definition getHealth (now : jsstring) : HttpResponse :=
  mkHttp 200 (JObject [(str "status", JString (str "OK"));
                       (str "message", JString (str "Skills Feedback API is running"));
                       (str "timestamp", JString now)]).

(** ** Vocabulary of the further statements *)

(** A comment the validator lets through: a string that is not blank. *)
Definition validComment (v : JSValue) : bool :=
  match v with
  | JString c => negb (isEmpty (trim c))
  | _ => false
  end.

(** A name the validator lets through: a non-empty string. *)
Definition validName (v : JSValue) : bool :=
  match v with
  | JString n => negb (isEmpty n)
  | _ => false
  end.

(** A rating the validator lets through: a number from 1 to 5. *)
Definition validRating (v : JSValue) : bool :=
  match v with
  | JNumber r => Num.le (Num.ofZ 1) r && Num.le r (Num.ofZ 5)
  | _ => false
  end.

Definition isNullish (v : JSValue) : bool :=
  match v with
  | JUndefined | JNull => true
  | _ => false
  end.

(** The message text of a reply the program can use: a success status, a
    JSON body, a string at [choices[0].message.content]. *)
Definition replyText (outcome : Completion Response) : option jsstring :=
  match outcome with
  | Throw _ => None
  | Normal response =>
      if ok response then
        match (data <- json response ;;
               choices <- getProp data (str "choices") ;;
               choice <- getProp choices (str "0") ;;
               reply <- getProp choice (str "message") ;;
               getProp reply (str "content")) with
        | Normal (JString text) => Some text
        | _ => None
        end
      else None
  end.

(** The value the [try] block returns for a reply text. *)
Definition successResponse (text : jsstring) : JSValue :=
  JObject [(str "success", JBool true);
           (str "feedback",
            feedbackObject (topStrengths (parseFeedbackResponse text))
                           (practicalExperience (parseFeedbackResponse text))
                           (domainKnowledge (parseFeedbackResponse text)))].

(** A string that does not start with white space. *)
Definition headClean (s : jsstring) : bool :=
  match s with
  | [] => true
  | c :: _ => negb (isWhiteSpace c)
  end.

(** [a] is [b] with some code units left out. *)
Inductive Subseq : jsstring -> jsstring -> Prop :=
| Subseq_nil : Subseq [] []
| Subseq_keep c a b : Subseq a b -> Subseq (c :: a) (c :: b)
| Subseq_drop c a b : Subseq a b -> Subseq a (c :: b).

Definition newlineFree (s : jsstring) : bool := forallb (fun c => negb (c =? NEWLINE)%N) s.

(** * Properties *)

(** ** Strings *)

Section StringFacts.

Implicit Types s p needle pre suf : jsstring.

Lemma isEmpty_false s : isEmpty s = false <-> s <> [].
Proof. destruct s; simpl; split; congruence. Qed.

Lemma orElse_nonempty a d : d <> [] -> (a ||| d)%js <> [].
Proof. unfold orElse; destruct a; simpl; [auto | discriminate]. Qed.

Lemma orElse_keep a d : a <> [] -> (a ||| d)%js = a.
Proof. unfold orElse; destruct a; simpl; congruence. Qed.




Lemma toUpperCase_app a b : toUpperCase (a ++ b) = toUpperCase a ++ toUpperCase b.
Proof. apply flat_map_app. Qed.



End StringFacts.

(** ** The line scan *)

Lemma DEFAULT_nonempty c : defaultOf c <> [].
Proof. destruct c; discriminate. Qed.

Lemma getField_setField_same c v st : getField c (setField c v st) = v.
Proof. destruct c; reflexivity. Qed.

Lemma getField_setField_other c c' v st :
  c' <> c -> getField c' (setField c v st) = getField c' st.
Proof. destruct c, c'; simpl; congruence. Qed.

Lemma scanLine_firstMatch st line :
  scanLine st line =
  match firstMatch line with
  | Some c => setField c (extract c line) st
  | None => st
  end.
Proof.
  unfold scanLine, firstMatch, categories, find.
  destruct (hasLabel TopStrengths line); [reflexivity|].
  destruct (hasLabel PracticalExperience line); [reflexivity|].
  destruct (hasLabel DomainKnowledge line); reflexivity.
Qed.

Lemma scanLine_other st line c :
  firstMatch line <> Some c -> getField c (scanLine st line) = getField c st.
Proof.
  rewrite scanLine_firstMatch. destruct (firstMatch line) as [c'|]; [|reflexivity].
  intros H. apply getField_setField_other. congruence.
Qed.

Lemma scan_others st lines c :
  (forall l, In l lines -> firstMatch l <> Some c) ->
  getField c (fold_left scanLine lines st) = getField c st.
Proof.
  revert st. induction lines as [|l lines IH]; intros st H; simpl; [reflexivity|].
  rewrite IH by (intros; apply H; now right).
  apply scanLine_other, H. now left.
Qed.

Lemma scan_last st before line after c :
  firstMatch line = Some c ->
  (forall l, In l after -> firstMatch l <> Some c) ->
  getField c (fold_left scanLine (before ++ line :: after) st) = extract c line.
Proof.
  intros Hm Hafter. rewrite fold_left_app. simpl.
  rewrite scan_others by assumption.
  rewrite scanLine_firstMatch, Hm. apply getField_setField_same.
Qed.

(** Removing a line changes at most the field of its category. *)
Lemma scan_without st before line after c c' :
  firstMatch line = Some c -> c' <> c ->
  getField c' (fold_left scanLine (before ++ line :: after) st)
  = getField c' (fold_left scanLine (before ++ after) st).
Proof.
  intros Hm Hne. rewrite !fold_left_app. simpl.
  generalize (fold_left scanLine before st). clear st before. intros st.
  assert (Hfold : forall lines a b,
             getField c' a = getField c' b ->
             getField c' (fold_left scanLine lines a)
             = getField c' (fold_left scanLine lines b)).
  { induction lines as [|l lines IH]; intros a b Hab; simpl; [assumption|].
    apply IH. rewrite !scanLine_firstMatch.
    destruct (firstMatch l) as [d|]; [|assumption].
    destruct d, c'; simpl in *; congruence. }
  apply Hfold, scanLine_other. congruence.
Qed.

Lemma allUnset_false st c : getField c st <> [] -> allUnset st = false.
Proof.
  unfold allUnset.
  destruct c, st as [[|] [|] [|]]; simpl; try reflexivity; congruence.
Qed.

Lemma fallback_set text st : allUnset st = false -> fallback text st = st.
Proof. unfold fallback. now intros ->. Qed.

Lemma parse_field text c :
  getField c (parseFeedbackResponse text)
  = (getField c (fallback text (scanLines (nonBlankLines text))) ||| defaultOf c)%js.
Proof. destruct c; reflexivity. Qed.

(** ** The parser's result is populated *)

(** C1. For every input string, each of the three fields of the result of
    [parseFeedbackResponse] is a non-empty string. *)
Theorem parseFeedbackResponse_populated (feedbackText : jsstring) :
  isEmpty (topStrengths (parseFeedbackResponse feedbackText)) = false
  /\ isEmpty (practicalExperience (parseFeedbackResponse feedbackText)) = false
  /\ isEmpty (domainKnowledge (parseFeedbackResponse feedbackText)) = false.
Proof.
  repeat split; apply isEmpty_false; cbn [parseFeedbackResponse topStrengths
    practicalExperience domainKnowledge]; apply orElse_nonempty.
  - apply (DEFAULT_nonempty TopStrengths).
  - apply (DEFAULT_nonempty PracticalExperience).
  - apply (DEFAULT_nonempty DomainKnowledge).
Qed.

(** ** Labels are found anywhere in a line; a line feeds one category *)






(** ** Well-labelled replies *)

Lemma Permutation_three {A : Type} (l : list A) (x y z : A) :
  Permutation l [x; y; z] ->
  l = [x; y; z] \/ l = [x; z; y] \/ l = [y; x; z]
  \/ l = [y; z; x] \/ l = [z; x; y] \/ l = [z; y; x].
Proof.
  intros H. pose proof (Permutation_length H) as Hlen.
  destruct l as [|a [|b [|c [|d l]]]]; try discriminate Hlen. clear Hlen.
  assert (Ha : In a [x; y; z]) by (eapply Permutation_in; [exact H | now left]).
  destruct Ha as [<-|[<-|[<-|[]]]].
  - apply Permutation_cons_inv, Permutation_length_2_inv in H.
    destruct H as [H|H]; injection H as -> ->; auto.
  - assert (H' : Permutation (y :: [b; c]) (y :: [x; z]))
      by (etransitivity; [exact H | apply perm_swap]).
    apply Permutation_cons_inv, Permutation_length_2_inv in H'.
    destruct H' as [H'|H']; injection H' as -> ->; auto 6.
  - assert (H' : Permutation (z :: [b; c]) (z :: [x; y])).
    { etransitivity; [exact H|].
      etransitivity; [apply perm_skip, perm_swap | apply perm_swap]. }
    apply Permutation_cons_inv, Permutation_length_2_inv in H'.
    destruct H' as [H'|H']; injection H' as -> ->; auto 7.
Qed.

(** C5, as stated, fails in its second half. The last line that contains a
    label does not give the field when it also contains a label that comes
    earlier in the [if] chain: the line goes to that other category. And an
    empty value on the last line is not kept either: with nothing else
    found, the fallback split fills the fields from the whole text. *)
Lemma last_label_line_counterexample :
  let first := str "DOMAIN_KNOWLEDGE: y" in
  let last := str "TOP_STRENGTHS: x DOMAIN_KNOWLEDGE: z" in
  nonBlankLines (unlines [first; last]) = [first; last]
  /\ hasLabel DomainKnowledge first = true
  /\ hasLabel DomainKnowledge last = true
  /\ extract DomainKnowledge last = str "TOP_STRENGTHS: x  z"
  /\ parseFeedbackResponse (unlines [first; last])
     = mkFeedback (str "x DOMAIN_KNOWLEDGE: z") DEFAULT_PRACTICAL (str "y")
  /\ extract TopStrengths (str "TOP_STRENGTHS:") = []
  /\ parseFeedbackResponse
       (unlines [str "TOP_STRENGTHS: x"; str "TOP_STRENGTHS:"; str "1. a"])
     = mkFeedback (str "_STRENGTHS: x") (str "_STRENGTHS:") (str "a").
Proof. vm_compute. repeat split. Qed.

(** C5, amended. When the non-blank lines of the text are, in any order,
    the lines TOP_STRENGTHS: A, PRACTICAL EXPERIENCE: B and
    DOMAIN_KNOWLEDGE: C, the parser yields A, B and C. And when several
    lines are matched to one category (a line counting for the first label
    it contains), the field holds after the scan the value of the last of
    them, which is also the field of the result when that value is not
    empty. *)
Theorem labelled_lines_any_order_last_wins :
  (forall text,
      Permutation (nonBlankLines text)
        [str "TOP_STRENGTHS: A"; str "PRACTICAL EXPERIENCE: B"; str "DOMAIN_KNOWLEDGE: C"] ->
      parseFeedbackResponse text = mkFeedback (str "A") (str "B") (str "C"))
  /\ (forall text before line after c,
         nonBlankLines text = before ++ line :: after ->
         firstMatch line = Some c ->
         (forall l, In l after -> firstMatch l <> Some c) ->
         getField c (scanLines (nonBlankLines text)) = extract c line
         /\ (extract c line <> [] ->
             getField c (parseFeedbackResponse text) = extract c line)).
Proof.
  split.
  - intros text H.
    assert (Hs : scanLines (nonBlankLines text) = mkFeedback (str "A") (str "B") (str "C")).
    { apply Permutation_three in H.
      destruct H as [H|[H|[H|[H|[H|H]]]]]; rewrite H; vm_compute; reflexivity. }
    unfold parseFeedbackResponse. rewrite Hs.
    rewrite fallback_set by reflexivity. reflexivity.
  - intros text before line after c Hlines Hm Hafter.
    assert (Hs : getField c (scanLines (nonBlankLines text)) = extract c line)
      by (rewrite Hlines; now apply scan_last).
    split; [exact Hs|]. intros Hne.
    rewrite parse_field, fallback_set.
    + rewrite Hs. now apply orElse_keep.
    + apply allUnset_false with c. now rewrite Hs.
Qed.

Lemma labelled_lines_any_order_last_wins_witness :
  parseFeedbackResponse
    (unlines [[]; str "DOMAIN_KNOWLEDGE: C"; str "   "; str "TOP_STRENGTHS: A"; [];
              str "PRACTICAL EXPERIENCE: B"; []])
  = mkFeedback (str "A") (str "B") (str "C")
  /\ topStrengths
       (parseFeedbackResponse
          (unlines [str "Top Strengths: first"; str "Domain Knowledge: d";
                    str "TOP_STRENGTHS: second"; str "closing remark"]))
     = str "second".
Proof.
  destruct labelled_lines_any_order_last_wins as [Hperm Hlast]. split.
  - apply Hperm. vm_compute.
    apply Permutation_sym.
    etransitivity; [apply perm_skip, perm_swap | apply perm_swap].
  - apply (Hlast _ [str "Top Strengths: first"; str "Domain Knowledge: d"]
             (str "TOP_STRENGTHS: second") [str "closing remark"] TopStrengths).
    + vm_compute. reflexivity.
    + vm_compute. reflexivity.
    + intros l [<-|[]]. vm_compute. discriminate.
    + vm_compute. discriminate.
Defined.

(** ** A label line without content *)

(** C6, as stated, fails: the line TOP_STRENGTHS: captures the empty
    string, which leaves all three fields empty after the scan, so that the
    fallback split runs on the whole text, label line included. *)
Lemma empty_label_line_counterexample :
  let label := str "TOP_STRENGTHS:" in
  let rest := [str "1. good"; str "2. fair"; str "3. poor"] in
  nonBlankLines (unlines (label :: rest)) = label :: rest
  /\ firstMatch label = Some TopStrengths
  /\ extract TopStrengths label = []
  /\ parseFeedbackResponse (unlines (label :: rest))
     = mkFeedback (str "_STRENGTHS:") (str "good") (str "fair")
  /\ topStrengths (parseFeedbackResponse (unlines (label :: rest))) <> DEFAULT_TOP
  /\ parseFeedbackResponse (unlines rest)
     = mkFeedback (str "good") (str "fair") (str "poor").
Proof. vm_compute. repeat split; discriminate. Qed.

(** C6, amended. When the last line matched to a category has no content
    after its label, the result has the canned sentence for that category
    if the scan leaves one of the other two fields non-empty, or if the
    fallback split of the whole text yields fewer than three fragments; in
    the first case the other two fields of the result are those of the text
    without that line. *)
Theorem empty_label_line_defaults text before line after c :
  nonBlankLines text = before ++ line :: after ->
  firstMatch line = Some c ->
  extract c line = [] ->
  (forall l, In l after -> firstMatch l <> Some c) ->
  ((exists c', c' <> c /\ getField c' (scanLines (nonBlankLines text)) <> []) ->
   getField c (parseFeedbackResponse text) = defaultOf c
   /\ (forall text' c',
          nonBlankLines text' = before ++ after -> c' <> c ->
          getField c' (parseFeedbackResponse text')
          = getField c' (parseFeedbackResponse text)))
  /\ ((List.length (sections text) < 3)%nat ->
      getField c (parseFeedbackResponse text) = defaultOf c).
Proof.
  intros Hlines Hm Hempty Hafter.
  assert (Hc : getField c (scanLines (nonBlankLines text)) = []).
  { rewrite Hlines. unfold scanLines. rewrite scan_last by assumption.
    exact Hempty. }
  split.
  - intros (d & Hd & Hset). split.
    + rewrite parse_field, fallback_set by (now apply allUnset_false with d).
      now rewrite Hc.
    + intros text' c' Hlines' Hc'.
      assert (Hsame : forall e, e <> c ->
                 getField e (scanLines (nonBlankLines text'))
                 = getField e (scanLines (nonBlankLines text))).
      { intros e He. rewrite Hlines, Hlines'. unfold scanLines.
        symmetry. now apply scan_without with c. }
      rewrite !parse_field, !fallback_set.
      * now rewrite Hsame.
      * now apply allUnset_false with d.
      * apply allUnset_false with d. now rewrite Hsame.
  - intros Hfew. rewrite parse_field. unfold fallback.
    destruct (allUnset (scanLines (nonBlankLines text))).
    + destruct (sections text) as [|s0 [|s1 [|s2 more]]];
        try (simpl in Hfew; lia); destruct c; reflexivity.
    + now rewrite Hc.
Qed.

Lemma empty_label_line_defaults_witness :
  let text := unlines [str "TOP_STRENGTHS:"; str "Practical Experience: two services";
                       str "thanks"] in
  topStrengths (parseFeedbackResponse text) = DEFAULT_TOP
  /\ practicalExperience
       (parseFeedbackResponse (unlines [str "Practical Experience: two services";
                                        str "thanks"]))
     = practicalExperience (parseFeedbackResponse text)
  /\ topStrengths (parseFeedbackResponse (str "TOP_STRENGTHS:")) = DEFAULT_TOP.
Proof.
  destruct (@empty_label_line_defaults
              (unlines [str "TOP_STRENGTHS:"; str "Practical Experience: two services";
                        str "thanks"])
              [] (str "TOP_STRENGTHS:")
              [str "Practical Experience: two services"; str "thanks"] TopStrengths)
    as [Hother _].
  - vm_compute. reflexivity.
  - vm_compute. reflexivity.
  - vm_compute. reflexivity.
  - intros l [<-|[<-|[]]]; vm_compute; discriminate.
  - destruct Hother as [Hdefault Hothers].
    + exists PracticalExperience. split; [discriminate | vm_compute; discriminate].
    + split; [exact Hdefault|]. split.
      * apply (Hothers _ PracticalExperience); [vm_compute; reflexivity | discriminate].
      * apply (@empty_label_line_defaults (str "TOP_STRENGTHS:") []
                 (str "TOP_STRENGTHS:") [] TopStrengths);
          [vm_compute; reflexivity | vm_compute; reflexivity | vm_compute; reflexivity
          | intros l [] | vm_compute; lia].
Defined.

(** ** The fallback split *)

Section SplitRefinement.

Implicit Types s rest acc : jsstring.

Lemma canonicalize_sameLetter a b :
  (canonicalize b =? canonicalize a)%N = sameLetter a b.
Proof.
  unfold canonicalize, sameLetter, isAsciiLower.
  destruct (N.leb_spec 97 a), (N.leb_spec a 122),
           (N.leb_spec 97 b), (N.leb_spec b 122); simpl;
    repeat match goal with
           | |- context [N.eqb ?x ?y] => destruct (N.eqb_spec x y)
           end; simpl; try reflexivity; lia.
Qed.

Lemma canonicalize_period d : (canonicalize d =? canonicalize 46%N)%N = (d =? 46)%N.
Proof.
  unfold canonicalize, isAsciiLower. simpl.
  destruct (N.leb_spec 97 d), (N.leb_spec d 122); simpl;
    destruct (N.eqb_spec d 46), (N.eqb_spec (d - 32) 46); try reflexivity; lia.
Qed.

Lemma wordAt_length w s n : wordAt w s = Some n -> n = List.length w /\ (n <= List.length s)%nat.
Proof.
  revert s n. induction w as [|a w IH]; intros s n; simpl.
  - intros [= <-]. split; [reflexivity | lia].
  - destruct s as [|b s]; [discriminate|].
    destruct (sameLetter a b); [|discriminate].
    destruct (wordAt w s) as [k|] eqn:E; [|discriminate].
    intros [= <-]. destruct (IH _ _ E) as [-> Hle]. simpl. split; [reflexivity | lia].
Qed.

Lemma rmatch_literal w s :
  rmatch (literal w) s
  = match wordAt w s with Some n => [skipn n s] | None => [] end.
Proof.
  revert s. induction w as [|a w IH]; intros s; [reflexivity|].
  change (rmatch (literal (a :: w)) s)
    with (flat_map (rmatch (literal w)) (rmatch (RChar a) s)).
  destruct s as [|b s]; [reflexivity|].
  cbn [rmatch wordAt]. rewrite canonicalize_sameLetter.
  destruct (sameLetter a b); [|reflexivity].
  cbn [flat_map]. rewrite IH, app_nil_r.
  destruct (wordAt w s); reflexivity.
Qed.

Lemma plusIter_digits n s :
  (List.length s < n)%nat -> plusIter (rmatch RDigit) n s = digitTails s.
Proof.
  revert s. induction n as [|n IH]; intros s H; [lia|].
  destruct s as [|c s]; [reflexivity|].
  cbn [plusIter rmatch digitTails]. destruct (isDigit c); [|reflexivity].
  cbn [flat_map].
  replace (List.length s <? List.length (c :: s))%nat with true
    by (symmetry; apply Nat.ltb_lt; simpl; lia).
  rewrite app_nil_r, IH by (simpl in H; lia). reflexivity.
Qed.

Lemma digit_not_period c : isDigit c = true -> (c =? 46)%N = false.
Proof.
  unfold isDigit. intros H. apply andb_prop in H as [H _].
  apply N.leb_le in H. apply N.eqb_neq. lia.
Qed.

Lemma period_after_digits s :
  flat_map (rmatch (RChar 46%N)) (digitTails s)
  = match s with
    | c :: s' =>
        if isDigit c then
          match dropDigits s' with
          | d :: rest => if (d =? 46)%N then [rest] else []
          | [] => []
          end
        else []
    | [] => []
    end.
Proof.
  induction s as [|c s IH]; [reflexivity|].
  cbn [digitTails]. destruct (isDigit c); [|reflexivity].
  rewrite flat_map_app, IH. cbn [flat_map]. rewrite app_nil_r.
  destruct s as [|d s']; [reflexivity|].
  cbn [dropDigits rmatch]. rewrite canonicalize_period.
  destruct (isDigit d) eqn:Hd.
  - rewrite (digit_not_period _ Hd). apply app_nil_r.
  - reflexivity.
Qed.

Lemma dropDigits_suffix s : exists pre, s = pre ++ dropDigits s.
Proof.
  induction s as [|c s [pre IH]]; [now exists []|].
  simpl. destruct (isDigit c).
  - exists (c :: pre). simpl. now f_equal.
  - now exists [].
Qed.

Lemma skipn_suffix (pre rest : jsstring) :
  skipn (List.length (pre ++ rest) - List.length rest) (pre ++ rest) = rest.
Proof.
  rewrite length_app, Nat.add_sub.
  rewrite skipn_app, Nat.sub_diag, skipn_all. reflexivity.
Qed.

Lemma rmatch_number s :
  rmatch (RSeq (RPlus RDigit) (RChar 46%N)) s
  = match numberPeriod s with Some n => [skipn n s] | None => [] end.
Proof.
  cbn [rmatch]. rewrite plusIter_digits by lia. rewrite period_after_digits.
  unfold numberPeriod. destruct s as [|c s]; [reflexivity|].
  destruct (isDigit c); [|reflexivity].
  destruct (dropDigits_suffix s) as [pre Hpre].
  destruct (dropDigits s) as [|d rest]; [reflexivity|].
  destruct (d =? 46)%N; [|reflexivity].
  f_equal. rewrite Hpre.
  change (c :: pre ++ d :: rest) with ((c :: pre) ++ d :: rest).
  replace ((c :: pre) ++ d :: rest) with (((c :: pre) ++ [d]) ++ rest)
    by (rewrite <- app_assoc; reflexivity).
  symmetry. apply skipn_suffix.
Qed.

Lemma numberPeriod_length s n :
  numberPeriod s = Some n -> (1 <= n <= List.length s)%nat.
Proof.
  unfold numberPeriod. destruct s as [|c s]; [discriminate|].
  destruct (isDigit c); [|discriminate].
  destruct (dropDigits_suffix s) as [pre Hpre].
  destruct (dropDigits s) as [|d rest]; [discriminate|].
  destruct (d =? 46)%N; [|discriminate].
  intros [= <-]. rewrite Hpre. cbn [List.length]. rewrite length_app. cbn [List.length].
  destruct (List.length rest); lia.
Qed.

Lemma delimiterLength_bounds s n :
  delimiterLength s = Some n -> (1 <= n <= List.length s)%nat.
Proof.
  unfold delimiterLength.
  destruct (numberPeriod s) eqn:E1; [intros [= <-]; now apply numberPeriod_length|].
  destruct (wordAt (str "TOP") s) eqn:E2;
    [intros [= <-]; apply wordAt_length in E2 as [E2 ?]; vm_compute in E2; lia|].
  destruct (wordAt (str "PRACTICAL") s) eqn:E3;
    [intros [= <-]; apply wordAt_length in E3 as [E3 ?]; vm_compute in E3; lia|].
  intros E4. apply wordAt_length in E4 as [E4 ?]. vm_compute in E4. lia.
Qed.

(** One attempt of the pattern at a position finds a delimiter exactly
    where the specification sees one, and consumes exactly it. *)
Lemma execAt_SECTION_RE s :
  execAt SECTION_RE s = option_map (fun n => skipn n s) (delimiterLength s).
Proof.
  unfold execAt, SECTION_RE, delimiterLength.
  change (rmatch (RAlt ?a ?b) s) with (rmatch a s ++ rmatch b s).
  change (rmatch (RAlt ?a ?b) s) with (rmatch a s ++ rmatch b s).
  change (rmatch (RAlt ?a ?b) s) with (rmatch a s ++ rmatch b s).
  rewrite rmatch_number, !rmatch_literal.
  destruct (numberPeriod s); [reflexivity|].
  destruct (wordAt (str "TOP") s); [reflexivity|].
  destruct (wordAt (str "PRACTICAL") s); [reflexivity|].
  destruct (wordAt (str "DOMAIN") s); reflexivity.
Qed.

Lemma fragmentsFrom_skip k cur s :
  fragmentsFrom k cur s = fragmentsFrom O cur (skipn k s).
Proof.
  revert s. induction k as [|k IH]; intros s; [reflexivity|].
  destruct s as [|c s]; [reflexivity|]. simpl. apply IH.
Qed.

Lemma splitLoop_fragments fuel acc s :
  (List.length s < fuel)%nat ->
  splitLoop fuel SECTION_RE acc s = fragmentsFrom O acc s.
Proof.
  revert acc s. induction fuel as [|fuel IH]; intros acc s H; [lia|].
  destruct s as [|c s]; [reflexivity|].
  cbn [splitLoop fragmentsFrom]. rewrite execAt_SECTION_RE.
  destruct (delimiterLength (c :: s)) as [n|] eqn:E; cbn [option_map].
  - apply delimiterLength_bounds in E.
    assert (Hlen : List.length (skipn n (c :: s)) = (List.length (c :: s) - n)%nat)
      by apply length_skipn.
    replace (List.length (skipn n (c :: s)) =? List.length (c :: s))%nat with false
      by (symmetry; apply Nat.eqb_neq; lia).
    cbn [andb]. f_equal.
    rewrite IH by lia.
    rewrite (fragmentsFrom_skip (Nat.pred n)).
    destruct n as [|n]; [lia|]. reflexivity.
  - apply IH. simpl in H. lia.
Qed.

(** The split of the source yields the fragments of the specification. *)
Lemma splitRegex_fragments text : splitRegex SECTION_RE text = fragments text.
Proof.
  destruct text as [|c text]; [reflexivity|].
  unfold splitRegex, fragments. apply splitLoop_fragments. simpl. lia.
Qed.

End SplitRefinement.

(** ** Well-labelled replies, in general *)

Section PlainContent.

Implicit Types x u p : jsstring.

Lemma strEq_eq a b : strEq a b = true -> a = b.
Proof.
  revert b. induction a as [|c a IH]; intros [|d b]; simpl; try discriminate; [reflexivity|].
  intros H. apply andb_prop in H as [Hc Hab]. apply N.eqb_eq in Hc. f_equal; auto.
Qed.

Lemma plain_spec x :
  plain x = true -> x <> [] /\ trim x = x /\ ~ In COLON x.
Proof.
  unfold plain. intros H.
  apply andb_prop in H as [H Hcolon]. apply andb_prop in H as [Hne Htrim].
  repeat split.
  - apply isEmpty_false. now apply negb_true_iff.
  - now apply strEq_eq.
  - intros Hin. rewrite forallb_forall in Hcolon. specialize (Hcolon _ Hin).
    now rewrite N.eqb_refl in Hcolon.
Qed.

(** Upper-casing produces a colon only from a colon. *)
Lemma upperCodeUnit_colon c : In COLON (upperCodeUnit c) -> c = COLON.
Proof.
  unfold upperCodeUnit, isAsciiLower, COLON.
  destruct (N.leb_spec 97 c), (N.leb_spec c 122); cbn [andb];
    repeat match goal with
           | |- context [N.eqb c ?k] => destruct (N.eqb_spec c k)
           end;
    cbn [In]; intuition (try discriminate; lia).
Qed.

Lemma toUpperCase_colon_free x : ~ In COLON x -> ~ In COLON (toUpperCase x).
Proof.
  intros H Hin. unfold toUpperCase in Hin. apply in_flat_map in Hin as (c & Hc & Hup).
  apply upperCodeUnit_colon in Hup. now subst.
Qed.

Lemma startsWith_colon_free_nil l0 u :
  ~ In COLON u -> startsWith (l0 ++ [COLON]) u = false.
Proof.
  revert u. induction l0 as [|a l0 IH]; intros [|b u] H; cbn [app startsWith];
    try reflexivity.
  - destruct (N.eqb_spec COLON b) as [<-|]; [|reflexivity]. exfalso. apply H. now left.
  - rewrite IH by (intros Hin; apply H; now right). apply andb_false_r.
Qed.

Lemma startsWith_colon_free l0 p u :
  ~ In COLON u ->
  startsWith (l0 ++ [COLON]) (p ++ u) = startsWith (l0 ++ [COLON]) p.
Proof.
  intros H. revert p. induction l0 as [|a l0 IH]; intros [|b p].
  - apply (startsWith_colon_free_nil [] u H).
  - reflexivity.
  - apply (startsWith_colon_free_nil (a :: l0) u H).
  - simpl. now rewrite IH.
Qed.

Lemma includes_colon_free l0 p u :
  ~ In COLON u -> includes (p ++ u) (l0 ++ [COLON]) = includes p (l0 ++ [COLON]).
Proof.
  intros H. induction p as [|b p IH].
  - cbn [app]. transitivity false.
    + clear - H. induction u as [|c u IH]; simpl.
      * destruct l0; reflexivity.
      * rewrite startsWith_colon_free_nil by assumption.
        apply IH. intros Hin. apply H. now right.
    + destruct l0; reflexivity.
  - cbn [app includes].
    change (b :: p ++ u) with ((b :: p) ++ u).
    now rewrite startsWith_colon_free, IH.
Qed.

Lemma hasLabel_colon_free c p x :
  ~ In COLON x -> hasLabel c (p ++ x) = hasLabel c p.
Proof.
  intros H. apply toUpperCase_colon_free in H.
  unfold hasLabel. rewrite toUpperCase_app.
  destruct c.
  - change LBL_TOP_U with (str "TOP_STRENGTHS" ++ [COLON]).
    change LBL_TOP_S with (str "TOP STRENGTHS" ++ [COLON]).
    now rewrite !includes_colon_free.
  - change LBL_PRACTICAL_U with (str "PRACTICAL_EXPERIENCE" ++ [COLON]).
    change LBL_PRACTICAL_S with (str "PRACTICAL EXPERIENCE" ++ [COLON]).
    now rewrite !includes_colon_free.
  - change LBL_DOMAIN_U with (str "DOMAIN_KNOWLEDGE" ++ [COLON]).
    change LBL_DOMAIN_S with (str "DOMAIN KNOWLEDGE" ++ [COLON]).
    now rewrite !includes_colon_free.
Qed.

Lemma sameLetter_colon b : sameLetter COLON b = (COLON =? b)%N.
Proof.
  unfold sameLetter, isAsciiLower, COLON. cbn [andb orb].
  destruct (N.eqb_spec 58 b); [reflexivity|].
  destruct (N.leb_spec 97 b), (N.leb_spec b 122); cbn [andb orb]; try reflexivity.
  apply N.eqb_neq. lia.
Qed.

Lemma wordAt_colon_free_nil w0 u : ~ In COLON u -> wordAt (w0 ++ [COLON]) u = None.
Proof.
  revert u. induction w0 as [|a w0 IH]; intros [|b u] H; cbn [app wordAt];
    try reflexivity.
  - rewrite sameLetter_colon.
    destruct (N.eqb_spec COLON b) as [<-|]; [|reflexivity]. exfalso. apply H. now left.
  - rewrite IH by (intros Hin; apply H; now right). now destruct (sameLetter a b).
Qed.

Lemma wordAt_colon_free w0 p u :
  ~ In COLON u -> wordAt (w0 ++ [COLON]) (p ++ u) = wordAt (w0 ++ [COLON]) p.
Proof.
  intros H. revert p. induction w0 as [|a w0 IH]; intros [|b p].
  - apply (wordAt_colon_free_nil [] u H).
  - reflexivity.
  - apply (wordAt_colon_free_nil (a :: w0) u H).
  - simpl. now rewrite IH.
Qed.

Lemma execAt_literal w s :
  execAt (literal w) s = option_map (fun n => skipn n s) (wordAt w s).
Proof. unfold execAt. rewrite rmatch_literal. now destruct (wordAt w s). Qed.

(** A pattern that ends with a colon matches, in a line that ends with
    colon-free text, where it matches in the line without that text. *)
Lemma replace_colon_free w0 p u :
  ~ In COLON u ->
  replace (literal (w0 ++ [COLON])) [] (p ++ u)
  = replace (literal (w0 ++ [COLON])) [] p ++ u.
Proof.
  intros H. induction p as [|b p IH].
  - cbn [app]. replace (replace (literal (w0 ++ [COLON])) [] []) with (@nil codeUnit)
      by (cbn [replace]; rewrite execAt_literal; now destruct w0).
    cbn [app]. clear - H. induction u as [|c u IH]; cbn [replace].
    + rewrite execAt_literal. now destruct w0.
    + rewrite execAt_literal, wordAt_colon_free_nil by assumption.
      cbn [option_map]. f_equal. apply IH. intros Hin. apply H. now right.
  - change ((b :: p) ++ u) with (b :: p ++ u). cbn [replace].
    rewrite !execAt_literal.
    change (b :: p ++ u) with ((b :: p) ++ u).
    rewrite wordAt_colon_free by assumption.
    destruct (wordAt (w0 ++ [COLON]) (b :: p)) as [n|] eqn:E; cbn [option_map].
    + apply wordAt_length in E as [_ Hle].
      rewrite skipn_app.
      replace (n - List.length (b :: p))%nat with O by lia. reflexivity.
    + cbn [app]. f_equal. exact IH.
Qed.

(** A line made of a label, a space and plain content is matched to the
    label's category, and its content is what the scan extracts. *)
Lemma labelled_line c lbl x :
  In lbl (labels c) -> plain x = true ->
  firstMatch (lbl ++ str " " ++ x) = Some c
  /\ extract c (lbl ++ str " " ++ x) = x.
Proof.
  intros Hlbl Hx. apply plain_spec in Hx as (_ & Htrim & Hcolon).
  rewrite app_assoc. split.
  - unfold firstMatch, categories. cbn [find].
    rewrite (@hasLabel_colon_free TopStrengths _ _ Hcolon),
      (@hasLabel_colon_free PracticalExperience _ _ Hcolon),
      (@hasLabel_colon_free DomainKnowledge _ _ Hcolon).
    destruct c; cbn [labels In] in Hlbl; destruct Hlbl as [<-|[<-|[]]];
      vm_compute; reflexivity.
  - unfold extract.
    destruct c; cbn [labels In] in Hlbl; destruct Hlbl as [<-|[<-|[]]].
    all: change LBL_TOP_U with (str "TOP_STRENGTHS" ++ [COLON]).
    all: change LBL_TOP_S with (str "TOP STRENGTHS" ++ [COLON]).
    all: change LBL_PRACTICAL_U with (str "PRACTICAL_EXPERIENCE" ++ [COLON]).
    all: change LBL_PRACTICAL_S with (str "PRACTICAL EXPERIENCE" ++ [COLON]).
    all: change LBL_DOMAIN_U with (str "DOMAIN_KNOWLEDGE" ++ [COLON]).
    all: change LBL_DOMAIN_S with (str "DOMAIN KNOWLEDGE" ++ [COLON]).
    all: rewrite (@replace_colon_free _ _ _ Hcolon).
    all: match goal with
         | |- context [replace ?r [] ?p ++ _] =>
             let p' := eval vm_compute in (replace r [] p) in
             change (replace r [] p) with p'
         end.
    all: rewrite (@replace_colon_free _ _ _ Hcolon).
    all: match goal with
         | |- context [replace ?r [] ?p ++ _] =>
             let p' := eval vm_compute in (replace r [] p) in
             change (replace r [] p) with p'
         end.
    all: exact Htrim.
Qed.

(** The field of a category after the scan, when all the lines matched to
    it carry the same value. *)
Lemma scan_all_same c v lines st :
  (forall l, In l lines -> firstMatch l = Some c -> extract c l = v) ->
  (exists l, In l lines /\ firstMatch l = Some c) ->
  getField c (fold_left scanLine lines st) = v.
Proof.
  induction lines as [|x lines IH] using rev_ind; intros Hall (l & Hin & Hm).
  - destruct Hin.
  - rewrite fold_left_app. cbn [fold_left]. rewrite scanLine_firstMatch.
    destruct (firstMatch x) as [c'|] eqn:Ex.
    + destruct (sameCategory c' c) eqn:Ec.
      * assert (c' = c) by (destruct c, c'; try discriminate; reflexivity). subst c'.
        rewrite getField_setField_same. apply Hall; [apply in_or_app; right; now left|].
        exact Ex.
      * assert (Hne : c <> c') by (intros <-; destruct c; discriminate).
        rewrite getField_setField_other by exact Hne.
        apply IH; [intros; apply Hall; auto using in_or_app|].
        exists l. split; [|exact Hm].
        apply in_app_or in Hin as [Hin|[<-|[]]]; [exact Hin | congruence].
    + apply IH; [intros; apply Hall; auto using in_or_app|].
      exists l. split; [|exact Hm].
      apply in_app_or in Hin as [Hin|[<-|[]]]; [exact Hin | congruence].
Qed.

(** X8. Three lines made of a label (either spelling), a space and a
    content without colon and without white space around it, in any order
    and among blank lines, parse to exactly the three contents: the first
    half of C5 for any such contents. *)
Theorem labelled_lines_general text lt lp ld a b c :
  In lt (labels TopStrengths) -> In lp (labels PracticalExperience) ->
  In ld (labels DomainKnowledge) ->
  plain a = true -> plain b = true -> plain c = true ->
  Permutation (nonBlankLines text)
    [lt ++ str " " ++ a; lp ++ str " " ++ b; ld ++ str " " ++ c] ->
  parseFeedbackResponse text = mkFeedback a b c.
Proof.
  intros Hlt Hlp Hld Ha Hb Hc Hperm.
  destruct (labelled_line _ _ _ Hlt Ha) as [Mt Et].
  destruct (labelled_line _ _ _ Hlp Hb) as [Mp Ep].
  destruct (labelled_line _ _ _ Hld Hc) as [Md Ed].
  assert (Hfield : forall k line v,
             In line [lt ++ str " " ++ a; lp ++ str " " ++ b; ld ++ str " " ++ c] ->
             firstMatch line = Some k -> extract k line = v ->
             getField k (scanLines (nonBlankLines text)) = v).
  { intros k line v Hin Hm Hv. apply scan_all_same.
    - intros l Hl Hk. apply (Permutation_in _ Hperm) in Hl.
      destruct Hl as [<-|[<-|[<-|[]]]], Hin as [<-|[<-|[<-|[]]]];
        congruence.
    - exists line. split; [|exact Hm].
      apply (Permutation_in _ (Permutation_sym Hperm)). exact Hin. }
  assert (Hs : scanLines (nonBlankLines text) = mkFeedback a b c).
  { pose proof (Hfield _ _ _ (or_introl eq_refl) Mt Et) as H1.
    pose proof (Hfield _ _ _ (or_intror (or_introl eq_refl)) Mp Ep) as H2.
    pose proof (Hfield _ _ _ (or_intror (or_intror (or_introl eq_refl))) Md Ed) as H3.
    destruct (scanLines (nonBlankLines text)). cbn in H1, H2, H3. now subst. }
  apply plain_spec in Ha as (Ha & _), Hb as (Hb & _), Hc as (Hc & _).
  unfold parseFeedbackResponse. rewrite Hs.
  rewrite fallback_set by (now apply allUnset_false with TopStrengths).
  cbn [topStrengths practicalExperience domainKnowledge].
  now rewrite !orElse_keep.
Qed.

Lemma labelled_lines_general_witness :
  parseFeedbackResponse
    (unlines [str "DOMAIN KNOWLEDGE: Solid SQL, little cloud exposure"; [];
              str "TOP_STRENGTHS: Go and systems design";
              str "PRACTICAL EXPERIENCE: Shipped two services"])
  = mkFeedback (str "Go and systems design") (str "Shipped two services")
               (str "Solid SQL, little cloud exposure").
Proof.
  apply (@labelled_lines_general _ (str "TOP_STRENGTHS:") (str "PRACTICAL EXPERIENCE:")
           (str "DOMAIN KNOWLEDGE:")).
  - now left.
  - now right; left.
  - now right; left.
  - vm_compute. reflexivity.
  - vm_compute. reflexivity.
  - vm_compute. reflexivity.
  - vm_compute. apply Permutation_sym.
    etransitivity; [apply perm_skip, perm_swap | apply perm_swap].
Defined.

End PlainContent.

(** Fields that no line was matched to are empty after the scan: unset
    fields are empty ones. *)
Lemma unmatched_allUnset lines :
  (forall l, In l lines -> firstMatch l = None) ->
  allUnset (scanLines lines) = true.
Proof.
  intros H. unfold scanLines.
  assert (Hs : fold_left scanLine lines initialScan = initialScan).
  { generalize initialScan. induction lines as [|l lines IH]; intros st; [reflexivity|].
    cbn [fold_left]. rewrite scanLine_firstMatch, (H l) by now left.
    apply IH. intros; apply H; now right. }
  now rewrite Hs.
Qed.

(** C8. When the line scan leaves all three fields empty, the parser cuts
    the whole text at every occurrence of a number followed by a period or
    of TOP, PRACTICAL or DOMAIN in any letter case, drops the fragments that
    are empty after trimming, and, when at least three remain, returns the
    first three, trimmed, as topStrengths, practicalExperience and
    domainKnowledge. *)
Theorem fallback_split_first_three text :
  allUnset (scanLines (nonBlankLines text)) = true ->
  sections text = filter (fun f => negb (isBlank f)) (fragments text)
  /\ ((3 <= List.length (sections text))%nat ->
      parseFeedbackResponse text
      = mkFeedback (trim (nth 0 (sections text) []))
                   (trim (nth 1 (sections text) []))
                   (trim (nth 2 (sections text) []))).
Proof.
  intros Hunset. split.
  - unfold sections. now rewrite splitRegex_fragments.
  - intros Hlen. unfold parseFeedbackResponse, fallback. rewrite Hunset.
    assert (Hin : forall f, In f (sections text) -> trim f <> []).
    { intros f Hf. apply filter_In in Hf as [_ Hf].
      apply negb_true_iff in Hf. now apply isEmpty_false. }
    destruct (sections text) as [|s0 [|s1 [|s2 more]]]; try (simpl in Hlen; lia).
    cbn [topStrengths practicalExperience domainKnowledge nth].
    rewrite !orElse_keep by (apply Hin; simpl; auto). reflexivity.
Qed.

Lemma fallback_split_first_three_witness :
  parseFeedbackResponse
    (str "1. Go and Rust 2. Built two services 3. Needs more cloud depth")
  = mkFeedback (str "Go and Rust") (str "Built two services")
               (str "Needs more cloud depth").
Proof.
  destruct (@fallback_split_first_three
              (str "1. Go and Rust 2. Built two services 3. Needs more cloud depth"))
    as [_ H]; [vm_compute; reflexivity|].
  rewrite H by (vm_compute; lia). vm_compute. reflexivity.
Defined.

(** ** Numbers *)

Lemma SFcompare_antisym (a b : Num.number) :
  SFcompare b a = option_map CompOpp (SFcompare a b).
Proof.
  destruct a as [sa|sa| |sa ma ea], b as [sb|sb| |sb mb eb]; simpl;
    try reflexivity; try (destruct sa; reflexivity); try (destruct sb; reflexivity);
    try (destruct sa, sb; reflexivity).
  destruct sa, sb; try reflexivity; do 2 f_equal;
    rewrite (Z.compare_antisym ea eb); destruct (ea ?= eb)%Z; simpl;
    try reflexivity.
  - rewrite CompOpp_involutive. exact (Pos.compare_cont_antisym mb ma Eq).
  - symmetry. exact (Pos.compare_cont_antisym ma mb Eq).
Qed.

Lemma le_not_gt (a b : Num.number) : Num.le a b = true -> Num.gt a b = false.
Proof.
  unfold Num.le, Num.gt, SFleb, SFltb. rewrite (SFcompare_antisym a b).
  destruct (SFcompare a b) as [[| |]|]; simpl; congruence.
Qed.

Lemma le_not_lt (a b : Num.number) : Num.le a b = true -> Num.lt b a = false.
Proof. apply le_not_gt. Qed.

Lemma ge_one_truthy (r : Num.number) : Num.le (Num.ofZ 1) r = true -> Num.truthy r = true.
Proof. intros H. destruct r; try reflexivity; vm_compute in H; discriminate. Qed.

(** ** The validator *)

Lemma trim_nonempty c : trim c <> [] -> c <> [].
Proof. intros H ->. now apply H. Qed.

(** A Skill of the data model passes the checks of the loop. *)
Lemma validSkill_view v :
  validSkill v = true ->
  exists props n r,
    v = JObject props
    /\ lookup (str "name") props = Some (JString n) /\ n <> []
    /\ lookup (str "rating") props = Some (JNumber r)
    /\ Num.le (Num.ofZ 1) r = true /\ Num.le r (Num.ofZ 5) = true.
Proof.
  unfold validSkill, viewSkill. destruct v as [| | | | | |props]; try discriminate.
  destruct (lookup (str "name") props) as [[| | | |n| |]|] eqn:En; try discriminate.
  destruct (lookup (str "rating") props) as [[| | |r| | |]|] eqn:Er; try discriminate.
  cbn [name rating]. intros H.
  apply andb_prop in H as [H H5]. apply andb_prop in H as [Hn H1].
  exists props, n, r. repeat split; try assumption; try reflexivity.
  apply isEmpty_false. now apply negb_true_iff.
Qed.

Lemma validateSkills_valid elems :
  forallb validSkill elems = true ->
  validateSkills elems = Normal (mkValidation true JUndefined).
Proof.
  induction elems as [|v elems IH]; [reflexivity|].
  cbn [forallb]. intros H. apply andb_prop in H as [Hv Hrest].
  destruct (validSkill_view _ Hv) as (props & n & r & -> & Hname & Hn & Hrating & H1 & H5).
  cbn [validateSkills getProp bind]. rewrite Hname. cbn [toBoolean isType typeof].
  apply isEmpty_false in Hn. rewrite Hn. cbn [negb orb].
  rewrite Hrating. cbn [toBoolean isType typeof bind].
  rewrite (ge_one_truthy _ H1), (le_not_lt _ _ H1), (le_not_gt _ _ H5).
  cbn [negb orb]. now apply IH.
Qed.

(** A validation that was rejected is not a valid one. *)
Ltac rejected H Hv :=
  cbn in H; injection H as <-; discriminate Hv.

(** What the validator accepts has the shape the prompt builder reads. *)
Lemma validateSkills_typed elems v :
  validateSkills elems = Normal v -> isValid v = true ->
  exists typed, viewSkills elems = Some typed.
Proof.
  revert v. induction elems as [|skill elems IH]; intros v H Hv; [now exists []|].
  cbn [validateSkills] in H.
  destruct skill as [| |b|x|x|l|props]; try discriminate H;
    try (injection H as <-; discriminate Hv).
  cbn [getProp bind viewSkills viewSkill] in *.
  destruct (lookup (str "name") props) as [[| |b|x|n|l|p]|];
    cbn [toBoolean isType typeof negb orb] in H;
    try (injection H as <-; discriminate Hv);
    try (destruct b; injection H as <-; discriminate Hv);
    try (destruct (Num.truthy x); injection H as <-; discriminate Hv).
  destruct (isEmpty n); cbn [negb orb] in H;
    [injection H as <-; discriminate Hv|].
  destruct (lookup (str "rating") props) as [[| |b|r|x|l|p]|];
    cbn [toBoolean isType typeof negb orb bind] in H;
    try (injection H as <-; discriminate Hv);
    try (destruct b; injection H as <-; discriminate Hv);
    try (destruct (isEmpty x); injection H as <-; discriminate Hv).
  destruct (negb (Num.truthy r) || false
            || (Num.lt r (Num.ofZ 1) || Num.gt r (Num.ofZ 5)));
    [injection H as <-; discriminate Hv|].
  destruct (IH _ H Hv) as [typed ->]. now eexists.
Qed.

Lemma validateInput_typed skills overallComment v :
  validateInput skills overallComment = Normal v -> isValid v = true ->
  exists elems comment typed,
    skills = JArray elems /\ overallComment = JString comment
    /\ viewSkills elems = Some typed.
Proof.
  unfold validateInput. intros H Hv.
  destruct skills as [| |b|x|x|elems|props];
    cbn [toBoolean isArray negb orb] in H.
  1, 2, 7: rejected H Hv.
  - destruct b; rejected H Hv.
  - destruct (Num.truthy x); rejected H Hv.
  - destruct (isEmpty x); rejected H Hv.
  - destruct elems as [|skill elems]; [rejected H Hv|].
    destruct overallComment as [| |b|x|comment|l|p];
      cbn [toBoolean isType typeof negb orb] in H.
    1, 2, 6, 7: rejected H Hv.
    + destruct b; rejected H Hv.
    + destruct (Num.truthy x); rejected H Hv.
    + destruct (negb (negb (isEmpty comment)) || false || isEmpty (trim comment));
        [rejected H Hv|].
      destruct (validateSkills_typed _ H Hv) as [typed Ht].
      now exists (skill :: elems), comment, typed.
Qed.

(** C4. The validator accepts every request of the data model: a non-empty
    sequence of skills, each with a non-empty string name and a number
    rating from 1 to 5, and a comment that is not empty after trimming. And
    it answers an empty skills list with the message Invalid input. Please
    provide an array of skills., whatever the comment is: that check comes
    first. *)
Theorem validateInput_valid_and_empty :
  (forall skills overallComment,
      validRequest skills overallComment = true ->
      validateInput skills overallComment = Normal (mkValidation true JUndefined))
  /\ (forall overallComment,
         validateInput (JArray []) overallComment
         = Normal (mkValidation false
                     (JString (str "Invalid input. Please provide an array of skills.")))).
Proof.
  split; [|reflexivity].
  intros skills overallComment H. unfold validRequest in H.
  destruct skills as [| | | | |[|skill rest]|]; try discriminate H.
  destruct overallComment as [| | | |comment| |]; try discriminate H.
  apply andb_prop in H as [Hskills Hcomment].
  apply negb_true_iff in Hcomment.
  assert (Hc : isEmpty comment = false)
    by (apply isEmpty_false, trim_nonempty; now apply isEmpty_false).
  unfold validateInput.
  cbn [toBoolean isArray isType typeof negb orb]. rewrite Hc, Hcomment.
  cbn [negb orb]. now apply validateSkills_valid.
Qed.

Lemma validateInput_valid_and_empty_witness :
  validateInput
    (JArray [JObject [(str "name", JString (str "Go")); (str "rating", JNumber (Num.ofZ 5))];
             JObject [(str "name", JString (str "SQL"));
                      (str "rating", JNumber (Num.div (Num.ofZ 5) (Num.ofZ 2)))]])
    (JString (str "solid"))
  = Normal (mkValidation true JUndefined).
Proof.
  apply (proj1 validateInput_valid_and_empty). vm_compute. reflexivity.
Defined.

(** ** [SkillsFeedback] *)

Section Orchestration.

Variable w : World.
Variables skills overallComment : JSValue.

(** A run on a rejected input: the validator's message, and nothing else. *)
Lemma SkillsFeedback_rejected v :
  validateInput skills overallComment = Normal v -> isValid v = false ->
  SkillsFeedback w skills overallComment
  = (Normal (JObject [(str "success", JBool false); (str "error", message v)]), []).
Proof. unfold SkillsFeedback. now intros -> ->. Qed.

(** A run on an accepted input: one call, whose outcome decides the rest. *)
Lemma SkillsFeedback_accepted v :
  validateInput skills overallComment = Normal v -> isValid v = true ->
  exists elems comment typed,
    skills = JArray elems /\ overallComment = JString comment
    /\ viewSkills elems = Some typed
    /\ SkillsFeedback w skills overallComment
       = let request := completionRequest w (prompt typed comment) in
         match (response <- fetch w request ;; afterFetch response) with
         | Normal result => (Normal result, [CallFetch request])
         | Throw error =>
             (Normal failureResponse,
              [CallFetch request; ConsoleError (str "Error generating feedback:") error])
         end.
Proof.
  intros H Hv.
  destruct (validateInput_typed _ _ H Hv) as (elems & comment & typed & -> & -> & Ht).
  exists elems, comment, typed. repeat split; try assumption.
  unfold SkillsFeedback. now rewrite H, Hv, Ht.
Qed.

End Orchestration.

Lemma afterFetch_not_ok response :
  ok response = false -> exists e, afterFetch response = Throw e.
Proof.
  unfold afterFetch. intros ->. cbn [negb].
  destruct (json response) as [errorData|e]; cbn [bind]; [|now eexists].
  destruct (getProp errorData (str "error")) as [error|e]; cbn [bind]; [|now eexists].
  destruct (match error with
            | JUndefined | JNull => Normal JUndefined
            | _ => getProp error (str "message")
            end) as [detail|e]; cbn [bind]; [|now eexists].
  destruct (toStringOrThrow _) as [text|e]; cbn [bind]; now eexists.
Qed.

(** C3. When the validator rejects the input, [SkillsFeedback] returns
    success false with the validator's message as error, and the run makes
    no call at all: no request to the completion service, nothing logged. *)
Theorem validation_failure_returns_at_once w skills overallComment v :
  validateInput skills overallComment = Normal v -> isValid v = false ->
  fst (SkillsFeedback w skills overallComment)
  = Normal (JObject [(str "success", JBool false); (str "error", message v)])
  /\ snd (SkillsFeedback w skills overallComment) = []
  /\ fetchCalls (snd (SkillsFeedback w skills overallComment)) = [].
Proof.
  intros H Hv. rewrite (SkillsFeedback_rejected w _ _ H Hv). repeat split.
Qed.

(** C7. When the input passes the validator and the completion call throws
    or answers with a non-success status, [SkillsFeedback] returns normally,
    with success false, the error Failed to generate feedback, and the
    sentence Unable to generate feedback at this time. in all three feedback
    fields. *)
Theorem upstream_failure_is_caught w skills overallComment v :
  validateInput skills overallComment = Normal v -> isValid v = true ->
  (forall request,
      In request (fetchCalls (snd (SkillsFeedback w skills overallComment))) ->
      match fetch w request with
      | Throw _ => True
      | Normal response => ok response = false
      end) ->
  fst (SkillsFeedback w skills overallComment)
  = Normal
      (JObject
         [(str "success", JBool false);
          (str "error", JString (str "Failed to generate feedback"));
          (str "feedback",
           JObject
             [(str "Top_strength", JString (str "Unable to generate feedback at this time."));
              (str "practical_Experience",
               JString (str "Unable to generate feedback at this time."));
              (str "DOmain_Knowledge",
               JString (str "Unable to generate feedback at this time."))])]).
Proof.
  intros H Hv Hfail.
  destruct (SkillsFeedback_accepted w _ _ H Hv)
    as (elems & comment & typed & _ & _ & _ & Heq).
  rewrite Heq in Hfail |- *. cbv zeta in Hfail |- *.
  set (request := completionRequest w (prompt typed comment)) in *.
  specialize (Hfail request).
  destruct (fetch w request) as [response|e]; cbn [bind] in Hfail |- *;
    [|reflexivity].
  destruct (afterFetch response) as [result|e] eqn:Ea; [|reflexivity].
  destruct (afterFetch_not_ok response) as [e He];
    [apply Hfail; now left | congruence].
Qed.

Lemma validation_failure_returns_at_once_witness :
  SkillsFeedback (stubbedWorld JUndefined (Normal labelledReply)) (JArray []) sampleComment
  = (Normal (JObject [(str "success", JBool false);
                      (str "error",
                       JString (str "Invalid input. Please provide an array of skills."))]),
     []).
Proof.
  destruct (@validation_failure_returns_at_once
              (stubbedWorld JUndefined (Normal labelledReply)) (JArray []) sampleComment
              (invalid "Invalid input. Please provide an array of skills."))
    as (Hres & Htrace & _); [reflexivity | reflexivity |].
  rewrite (surjective_pairing (SkillsFeedback _ _ _)), Hres, Htrace. reflexivity.
Defined.

Lemma upstream_failure_is_caught_witness :
  fst (SkillsFeedback (stubbedWorld (JString (str "key")) (Normal unavailable))
         sampleSkills sampleComment)
  = Normal failureResponse
  /\ fst (SkillsFeedback (stubbedWorld (JString (str "key")) (Throw FetchError))
            sampleSkills sampleComment)
     = Normal failureResponse.
Proof.
  split.
  - apply (@upstream_failure_is_caught _ _ _ (mkValidation true JUndefined));
      [vm_compute; reflexivity | reflexivity | intros request _; reflexivity].
  - apply (@upstream_failure_is_caught _ _ _ (mkValidation true JUndefined));
      [vm_compute; reflexivity | reflexivity | intros request _; exact I].
Defined.

(** C2, as stated, fails: the feedback object of a successful run has no
    field named topStrengths, practicalExperience or domainKnowledge. *)
Lemma feedback_field_names_counterexample :
  exists feedback,
    fst (SkillsFeedback (stubbedWorld (JString (str "key")) (Normal labelledReply))
           sampleSkills sampleComment)
    = Normal (JObject [(str "success", JBool true); (str "feedback", feedback)])
    /\ getProp feedback (str "topStrengths") = Normal JUndefined
    /\ getProp feedback (str "practicalExperience") = Normal JUndefined
    /\ getProp feedback (str "domainKnowledge") = Normal JUndefined
    /\ feedback = JObject [(str "Top_strength", JString (str "A"));
                           (str "practical_Experience", JString (str "B"));
                           (str "DOmain_Knowledge", JString (str "C"))].
Proof. eexists. vm_compute. repeat split. Qed.

(** C2, amended. When the input passes the validator, the completion call
    answers with a success status and a JSON body, and choices[0].message
    .content of that body is a string, [SkillsFeedback] returns success true
    and a feedback object whose fields are named Top_strength,
    practical_Experience and DOmain_Knowledge, holding what the parser
    returns for that string as topStrengths, practicalExperience and
    domainKnowledge. *)
Theorem completion_success_response w skills overallComment v response data text :
  validateInput skills overallComment = Normal v -> isValid v = true ->
  (forall request,
      In request (fetchCalls (snd (SkillsFeedback w skills overallComment))) ->
      fetch w request = Normal response) ->
  ok response = true ->
  json response = Normal data ->
  (choices <- getProp data (str "choices") ;;
   choice <- getProp choices (str "0") ;;
   reply <- getProp choice (str "message") ;;
   getProp reply (str "content")) = Normal (JString text) ->
  fst (SkillsFeedback w skills overallComment)
  = Normal
      (JObject
         [(str "success", JBool true);
          (str "feedback",
           JObject
             [(str "Top_strength", JString (topStrengths (parseFeedbackResponse text)));
              (str "practical_Experience",
               JString (practicalExperience (parseFeedbackResponse text)));
              (str "DOmain_Knowledge",
               JString (domainKnowledge (parseFeedbackResponse text)))])]).
Proof.
  intros H Hv Hcall Hok Hjson Hpath.
  destruct (SkillsFeedback_accepted w _ _ H Hv)
    as (elems & comment & typed & _ & _ & _ & Heq).
  rewrite Heq in Hcall |- *. cbv zeta in Hcall |- *.
  set (request := completionRequest w (prompt typed comment)) in *.
  assert (Hf : fetch w request = Normal response).
  { apply Hcall. destruct (_ <- _ ;; _); now left. }
  rewrite Hf. cbn [bind]. unfold afterFetch. rewrite Hok, Hjson. cbn [negb bind].
  destruct (getProp data (str "choices")) as [choices|]; [|discriminate Hpath].
  cbn [bind] in Hpath |- *.
  destruct (getProp choices (str "0")) as [choice|]; [|discriminate Hpath].
  cbn [bind] in Hpath |- *.
  destruct (getProp choice (str "message")) as [reply|]; [|discriminate Hpath].
  cbn [bind] in Hpath |- *. rewrite Hpath. reflexivity.
Qed.

Lemma completion_success_response_witness :
  fst (SkillsFeedback (stubbedWorld (JString (str "key")) (Normal labelledReply))
         sampleSkills sampleComment)
  = Normal (JObject [(str "success", JBool true);
                     (str "feedback", feedbackObject (str "A") (str "B") (str "C"))]).
Proof.
  rewrite (@completion_success_response
             (stubbedWorld (JString (str "key")) (Normal labelledReply))
             sampleSkills sampleComment (mkValidation true JUndefined) labelledReply
             (replyBody (unlines [str "TOP_STRENGTHS: A"; str "PRACTICAL EXPERIENCE: B";
                                  str "DOMAIN_KNOWLEDGE: C"]))
             (unlines [str "TOP_STRENGTHS: A"; str "PRACTICAL EXPERIENCE: B";
                       str "DOMAIN_KNOWLEDGE: C"])).
  - vm_compute. reflexivity.
  - vm_compute. reflexivity.
  - reflexivity.
  - intros request _. reflexivity.
  - reflexivity.
  - reflexivity.
  - reflexivity.
Defined.

(** ** The prompt *)

Lemma promptsSent_run w skills overallComment :
  promptsSent (snd (SkillsFeedback w skills overallComment))
  = match validateInput skills overallComment, skills, overallComment with
    | Normal v, JArray elems, JString comment =>
        if isValid v
        then match viewSkills elems with
             | Some typed => [prompt typed comment]
             | None => []
             end
        else []
    | _, _, _ => []
    end.
Proof.
  unfold SkillsFeedback.
  destruct (validateInput skills overallComment) as [v|e]; [|reflexivity].
  destruct (isValid v); cbn [negb].
  - destruct skills as [| | | | |elems|]; try reflexivity.
    destruct overallComment as [| | | |comment| |]; try reflexivity.
    destruct (viewSkills elems) as [typed|]; [|reflexivity].
    cbv zeta. destruct (_ <- _ ;; _); reflexivity.
  - destruct skills as [| | | | |elems|]; try reflexivity.
    destruct overallComment; reflexivity.
Qed.

(** C9. The prompt is a function of the skills and the comment alone: two
    runs on the same skills and comment, whatever the API key and whatever
    the completion service answers, send the same prompt, character for
    character; for an accepted input it is the template filled with the
    skill lines, the average rating and the two counts. *)
Theorem prompt_deterministic :
  (forall w1 w2 skills overallComment,
      promptsSent (snd (SkillsFeedback w1 skills overallComment))
      = promptsSent (snd (SkillsFeedback w2 skills overallComment)))
  /\ (forall w elems comment typed v,
         validateInput (JArray elems) (JString comment) = Normal v ->
         isValid v = true ->
         viewSkills elems = Some typed ->
         promptsSent (snd (SkillsFeedback w (JArray elems) (JString comment)))
         = [prompt typed comment]).
Proof.
  split.
  - intros. now rewrite !promptsSent_run.
  - intros w elems comment typed v H Hv Ht. now rewrite promptsSent_run, H, Hv, Ht.
Qed.

Lemma prompt_deterministic_witness :
  promptsSent
    (snd (SkillsFeedback (stubbedWorld (JString (str "key")) (Normal unavailable))
            sampleSkills sampleComment))
  = promptsSent
      (snd (SkillsFeedback (stubbedWorld JUndefined (Normal labelledReply))
              sampleSkills sampleComment))
  /\ promptsSent
       (snd (SkillsFeedback (stubbedWorld JUndefined (Normal labelledReply))
               sampleSkills sampleComment))
     = [prompt [mkSkill (str "Go") (Num.ofZ 5); mkSkill (str "SQL") (Num.ofZ 2)]
               (str "solid")].
Proof.
  destruct prompt_deterministic as [Hsame Hprompt]. split.
  - apply Hsame.
  - apply (Hprompt _ _ _ _ (mkValidation true JUndefined));
      [vm_compute; reflexivity | reflexivity | reflexivity].
Defined.

(** The rendering of the statistics on the examples of the specification. *)
Example averageRating_5_3 :
  averageRating [mkSkill (str "a") (Num.ofZ 5); mkSkill (str "b") (Num.ofZ 3)] = str "4.0".
Proof. vm_compute. reflexivity. Qed.

Example skillsText_sample :
  skillsText [mkSkill (str "Go") (Num.ofZ 5); mkSkill (str "SQL") (Num.ofZ 2)]
  = unlines [str "1. Go - Rating: 5/5"; str "2. SQL - Rating: 2/5"].
Proof. vm_compute. reflexivity. Qed.

(** ** The examples of the specification *)

Example rating_out_of_range :
  forall r, In r [JNumber (Num.ofZ 0); JNumber (Num.ofZ 6); JString (str "5"); JUndefined] ->
  validateInput (JArray [JObject [(str "name", JString (str "Go")); (str "rating", r)]])
    sampleComment
  = Normal (invalid "Each skill must have a rating between 1 and 5.").
Proof. intros r [<-|[<-|[<-|[<-|[]]]]]; vm_compute; reflexivity. Qed.

(** A skill that is [null] is not rejected by a message: reading its name
    throws, and [SkillsFeedback] throws with it, before any call. *)
Example null_skill_throws w :
  validateInput (JArray [JNull]) sampleComment = Throw TypeError
  /\ SkillsFeedback w (JArray [JNull]) sampleComment = (Throw TypeError, []).
Proof. split; reflexivity. Qed.

Example unlabelled_reply_defaults :
  parseFeedbackResponse (str "The candidate is strong overall.")
  = mkFeedback DEFAULT_TOP DEFAULT_PRACTICAL DEFAULT_DOMAIN.
Proof. vm_compute. reflexivity. Qed.

Example end_to_end :
  fst (SkillsFeedback (stubbedWorld (JString (str "key")) (Normal labelledReply))
         sampleSkills sampleComment)
  = Normal (JObject [(str "success", JBool true);
                     (str "feedback", feedbackObject (str "A") (str "B") (str "C"))])
  /\ fst (SkillsFeedback (stubbedWorld (JString (str "key")) (Normal unavailable))
            sampleSkills sampleComment)
     = Normal failureResponse.
Proof. split; vm_compute; reflexivity. Qed.

(** * Further properties *)

(** ** The validator, check by check *)

Section ValidatorChecks.

Lemma compare_defined (a b : Num.number) :
  a <> S754_nan -> b <> S754_nan -> exists c, SFcompare a b = Some c.
Proof.
  intros Ha Hb. destruct a, b; try congruence; simpl; eauto.
Qed.

Lemma lt_is_not_ge (a b : Num.number) :
  a <> S754_nan -> b <> S754_nan -> Num.lt a b = negb (Num.le b a).
Proof.
  intros Ha Hb. unfold Num.lt, Num.le, SFltb, SFleb.
  rewrite (SFcompare_antisym a b).
  destruct (compare_defined Ha Hb) as [[| |] ->]; reflexivity.
Qed.

(** The three tests on a rating amount to: not a number from 1 to 5. *)
Lemma rating_check rt :
  negb (toBoolean rt) || negb (isType TyNumber rt)
  || match rt with
     | JNumber r => Num.lt r (Num.ofZ 1) || Num.gt r (Num.ofZ 5)
     | _ => false
     end
  = negb (validRating rt).
Proof.
  destruct rt as [| |b|r|s|l|p]; try reflexivity;
    try (cbn; destruct b; reflexivity);
    try (cbn; destruct (isEmpty s); reflexivity).
  cbn [toBoolean isType typeof validRating negb orb].
  destruct r as [s|s| |s m e]; try reflexivity.
  - cbn [Num.truthy negb orb]. unfold Num.gt.
    rewrite !lt_is_not_ge by (vm_compute; discriminate).
    now rewrite negb_andb.
  - cbn [Num.truthy negb orb]. unfold Num.gt.
    rewrite !lt_is_not_ge by (vm_compute; discriminate).
    now rewrite negb_andb.
Qed.

(** The two tests on a name amount to: not a non-empty string. *)
Lemma name_check nm :
  negb (toBoolean nm) || negb (isType TyString nm) = negb (validName nm).
Proof.
  destruct nm as [| |b|r|s|l|p]; try reflexivity.
  - cbn. now destruct b.
  - cbn. now destruct (Num.truthy r).
  - cbn. now destruct (isEmpty s).
Qed.

Lemma validateSkills_cons skill rest :
  validateSkills (skill :: rest)
  = (nm <- getProp skill (str "name") ;;
     if negb (validName nm)
     then Normal (invalid "Each skill must have a valid name.")
     else
       rt <- getProp skill (str "rating") ;;
       if negb (validRating rt)
       then Normal (invalid "Each skill must have a rating between 1 and 5.")
       else validateSkills rest).
Proof.
  cbn [validateSkills].
  destruct (getProp skill (str "name")) as [nm|e]; [|reflexivity].
  cbn [bind]. rewrite name_check. destruct (negb (validName nm)); [reflexivity|].
  destruct (getProp skill (str "rating")) as [rt|e]; [|reflexivity].
  cbn [bind]. now rewrite rating_check.
Qed.

Lemma getProp_nullish v k :
  getProp v k = if isNullish v then Throw TypeError
                else Normal (match getProp v k with Normal x => x | Throw _ => JUndefined end).
Proof. destruct v; reflexivity. Qed.

Lemma validSkill_getProp skill :
  validSkill skill
  = match getProp skill (str "name"), getProp skill (str "rating") with
    | Normal nm, Normal rt => validName nm && validRating rt
    | _, _ => false
    end.
Proof.
  destruct skill as [| |b|r|s|l|props]; try reflexivity.
  unfold validSkill, viewSkill. cbn [getProp].
  destruct (lookup (str "name") props) as [[| |b|r|n|l|p]|];
    try reflexivity;
    destruct (lookup (str "rating") props) as [[| |b'|r'|n'|l'|p']|];
    cbn [name rating validName validRating];
    rewrite ?andb_false_r, <- ?andb_assoc; reflexivity.
Qed.

Lemma validateSkills_skip good rest :
  forallb validSkill good = true ->
  validateSkills (good ++ rest) = validateSkills rest.
Proof.
  induction good as [|skill good IH]; [reflexivity|].
  cbn [forallb app]. intros H. apply andb_prop in H as [Hs Hg].
  rewrite validateSkills_cons. rewrite validSkill_getProp in Hs.
  destruct (getProp skill (str "name")) as [nm|]; [|discriminate].
  destruct (getProp skill (str "rating")) as [rt|]; [|discriminate].
  apply andb_prop in Hs as [Hn Hr]. cbn [bind]. rewrite Hn. cbn [negb].
  rewrite Hr. now apply IH.
Qed.

Lemma validateSkills_stop bad rest :
  validSkill bad = false ->
  validateSkills (bad :: rest) = validateSkills [bad].
Proof.
  intros H. rewrite !validateSkills_cons. rewrite validSkill_getProp in H.
  destruct (getProp bad (str "name")) as [nm|]; [|reflexivity].
  cbn [bind]. destruct (validName nm); [|reflexivity]. cbn [negb].
  destruct (getProp bad (str "rating")) as [rt|]; [|reflexivity].
  cbn [bind]. cbn [andb] in H. now rewrite H.
Qed.

Lemma validateSkills_sound elems v :
  validateSkills elems = Normal v -> isValid v = true ->
  forallb validSkill elems = true.
Proof.
  induction elems as [|skill elems IH]; [reflexivity|].
  cbn [forallb]. rewrite validateSkills_cons, validSkill_getProp.
  destruct (getProp skill (str "name")) as [nm|]; [|discriminate].
  cbn [bind]. destruct (validName nm); cbn [negb];
    [|intros [= <-]; discriminate].
  destruct (getProp skill (str "rating")) as [rt|]; [|discriminate].
  cbn [bind]. destruct (validRating rt); cbn [negb andb];
    [|intros [= <-]; discriminate].
  exact IH.
Qed.

(** The validator as three checks in a row. *)
Lemma validateInput_checks skills overallComment :
  validateInput skills overallComment
  = match skills with
    | JArray (skill :: rest) =>
        if validComment overallComment
        then validateSkills (skill :: rest)
        else Normal (invalid "Please provide an overall comment about your skills.")
    | _ => Normal (invalid "Invalid input. Please provide an array of skills.")
    end.
Proof.
  unfold validateInput.
  destruct skills as [| |b|r|s|[|skill rest]|p]; try reflexivity.
  - cbn. now destruct b.
  - cbn. now destruct (Num.truthy r).
  - cbn. now destruct (isEmpty s).
  - cbn [toBoolean isArray negb orb].
    destruct overallComment as [| |b|r|c|l|p]; try reflexivity.
    + cbn. now destruct b.
    + cbn. now destruct (Num.truthy r).
    + cbn [toBoolean isType typeof validComment negb orb].
      destruct (isEmpty (trim c)) eqn:E.
      * rewrite !orb_true_r. reflexivity.
      * assert (Hc : isEmpty c = false)
          by (apply isEmpty_false, trim_nonempty; now apply isEmpty_false).
        rewrite Hc. reflexivity.
Qed.

End ValidatorChecks.

Lemma validateSkills_throws elems e :
  validateSkills elems = Throw e ->
  e = TypeError
  /\ exists good bad rest,
       elems = good ++ bad :: rest
       /\ forallb validSkill good = true /\ isNullish bad = true.
Proof.
  induction elems as [|skill elems IH]; [discriminate|].
  rewrite validateSkills_cons.
  pose proof (validSkill_getProp skill) as Hv.
  rewrite (getProp_nullish skill (str "name")) in Hv |- *.
  rewrite (getProp_nullish skill (str "rating")) in Hv |- *.
  destruct (isNullish skill) eqn:En.
  - intros [= <-]. split; [reflexivity|]. now exists [], skill, elems.
  - cbn [bind]. cbn [bind] in Hv.
    destruct (validName _); cbn [negb]; [|discriminate].
    destruct (validRating _); cbn [negb]; [|discriminate].
    intros H. destruct (IH H) as (-> & good & bad & rest & -> & Hg & Hb).
    split; [reflexivity|]. exists (skill :: good), bad, rest.
    cbn [forallb app]. now rewrite Hv, Hg.
Qed.

Lemma validateSkills_nullish bad rest :
  isNullish bad = true -> validateSkills (bad :: rest) = Throw TypeError.
Proof. destruct bad; try discriminate; reflexivity. Qed.

(** X1. The validator accepts nothing but requests of the data model: when
    it answers isValid true, the skills are a non-empty array of objects
    with a non-empty string name and a number rating from 1 to 5, and the
    comment is a string that is not blank. *)
Theorem validateInput_accepts_only_valid skills overallComment v :
  validateInput skills overallComment = Normal v -> isValid v = true ->
  validRequest skills overallComment = true.
Proof.
  rewrite validateInput_checks.
  destruct skills as [| | | | |[|skill rest]|]; try (intros [= <-]; discriminate).
  destruct (validComment overallComment) eqn:Ec; [|intros [= <-]; discriminate].
  intros H Hv. apply (validateSkills_sound _ H) in Hv.
  destruct overallComment; try discriminate Ec.
  unfold validRequest. cbn [validComment] in Ec. now rewrite Hv, Ec.
Qed.

Lemma validateInput_accepts_only_valid_witness :
  validRequest sampleSkills sampleComment = true.
Proof.
  apply (@validateInput_accepts_only_valid _ _ (mkValidation true JUndefined));
    [vm_compute; reflexivity | reflexivity].
Defined.

(** X2. The comment is checked before any skill is looked at: with a
    non-empty array of skills, a comment that is missing, not a string or
    blank is answered with the comment's message, whatever the array
    holds. *)
Theorem comment_checked_before_skills elems overallComment :
  elems <> [] -> validComment overallComment = false ->
  validateInput (JArray elems) overallComment
  = Normal (invalid "Please provide an overall comment about your skills.").
Proof.
  intros Hne Hc. rewrite validateInput_checks.
  destruct elems; [congruence|]. now rewrite Hc.
Qed.

Lemma comment_checked_before_skills_witness :
  validateInput (JArray [JNull; JNumber (Num.ofZ 7)]) (JString (str "   "))
  = Normal (invalid "Please provide an overall comment about your skills.").
Proof.
  apply comment_checked_before_skills; [discriminate | reflexivity].
Defined.

(** X3. The loop stops at the first skill that is not valid: the valid
    skills before it and everything after it have no part in the answer. *)
Theorem first_offending_skill_decides good bad rest overallComment :
  forallb validSkill good = true -> validSkill bad = false ->
  validComment overallComment = true ->
  validateInput (JArray (good ++ bad :: rest)) overallComment
  = validateInput (JArray [bad]) overallComment.
Proof.
  intros Hg Hb Hc. rewrite !validateInput_checks, Hc.
  transitivity (validateSkills (good ++ bad :: rest)).
  - destruct good; reflexivity.
  - rewrite validateSkills_skip by assumption. now apply validateSkills_stop.
Qed.

Lemma first_offending_skill_decides_witness :
  validateInput
    (JArray [skillObject "Go" (Num.ofZ 5); skillObject "SQL" (Num.ofZ 9); JNull])
    sampleComment
  = validateInput (JArray [skillObject "SQL" (Num.ofZ 9)]) sampleComment.
Proof.
  apply (@first_offending_skill_decides [skillObject "Go" (Num.ofZ 5)]
           (skillObject "SQL" (Num.ofZ 9)) [JNull]);
    vm_compute; reflexivity.
Defined.

(** X4. A skill that is not null or undefined and whose name is missing,
    not a string or empty is answered with the name's message, whatever its
    rating and whatever follows it. *)
Theorem invalid_name_message skill rest overallComment nm :
  validComment overallComment = true ->
  getProp skill (str "name") = Normal nm -> validName nm = false ->
  validateInput (JArray (skill :: rest)) overallComment
  = Normal (invalid "Each skill must have a valid name.").
Proof.
  intros Hc Hn Hv. rewrite validateInput_checks, Hc, validateSkills_cons, Hn.
  cbn [bind]. now rewrite Hv.
Qed.

Lemma invalid_name_message_witness :
  validateInput (JArray [JObject [(str "rating", JNumber (Num.ofZ 3))]; JNull]) sampleComment
  = Normal (invalid "Each skill must have a valid name.").
Proof.
  apply (@invalid_name_message _ _ _ JUndefined); reflexivity.
Defined.

(** X5. A skill with a valid name whose rating is missing, not a number,
    NaN, below 1 or above 5 is answered with the rating's message, whatever
    follows it. *)
Theorem invalid_rating_message skill rest overallComment nm rt :
  validComment overallComment = true ->
  getProp skill (str "name") = Normal nm -> validName nm = true ->
  getProp skill (str "rating") = Normal rt -> validRating rt = false ->
  validateInput (JArray (skill :: rest)) overallComment
  = Normal (invalid "Each skill must have a rating between 1 and 5.").
Proof.
  intros Hc Hn Hv Hr Hw. rewrite validateInput_checks, Hc, validateSkills_cons, Hn.
  cbn [bind]. rewrite Hv. cbn [negb]. rewrite Hr. cbn [bind]. now rewrite Hw.
Qed.

Lemma invalid_rating_message_witness :
  validateInput
    (JArray [JObject [(str "name", JString (str "Go")); (str "rating", JNumber S754_nan)]])
    sampleComment
  = Normal (invalid "Each skill must have a rating between 1 and 5.").
Proof.
  apply (@invalid_rating_message _ _ _ (JString (str "Go")) (JNumber S754_nan));
    reflexivity.
Defined.

(** X6. The validator throws in one situation only: the comment is valid and
    the loop reaches a skill that is null or undefined, every skill before
    it being valid. What it throws is a TypeError. *)
Theorem validateInput_throws_iff skills overallComment e :
  validateInput skills overallComment = Throw e
  <-> e = TypeError
      /\ validComment overallComment = true
      /\ exists good bad rest,
           skills = JArray (good ++ bad :: rest)
           /\ forallb validSkill good = true /\ isNullish bad = true.
Proof.
  rewrite validateInput_checks. split.
  - destruct skills as [| | | | |[|skill rest]|]; try discriminate.
    destruct (validComment overallComment); [|discriminate].
    intros H. apply validateSkills_throws in H as (-> & good & bad & rest' & -> & Hg & Hb).
    repeat split. now exists good, bad, rest'.
  - intros (-> & Hc & good & bad & rest & -> & Hg & Hb). rewrite Hc.
    transitivity (validateSkills (good ++ bad :: rest)).
    + destruct good; reflexivity.
    + rewrite validateSkills_skip by assumption. now apply validateSkills_nullish.
Qed.

Lemma validateInput_throws_iff_witness :
  validateInput (JArray [skillObject "Go" (Num.ofZ 5); JNull]) sampleComment
  = Throw TypeError.
Proof.
  apply validateInput_throws_iff. repeat split.
  exists [skillObject "Go" (Num.ofZ 5)], JNull, []. repeat split.
Defined.

(** X7. Whatever is not a non-empty array is answered with the skills'
    message: undefined (a missing key), null, a number, a string, an object,
    an empty array; the comment is not looked at. *)
Theorem not_an_array_rejected skills overallComment :
  (forall skill rest, skills <> JArray (skill :: rest)) ->
  validateInput skills overallComment
  = Normal (invalid "Invalid input. Please provide an array of skills.").
Proof.
  intros H. rewrite validateInput_checks.
  destruct skills as [| | | | |[|skill rest]|]; try reflexivity.
  now destruct (H skill rest).
Qed.

Lemma not_an_array_rejected_witness :
  validateInput (JObject [(str "0", skillObject "Go" (Num.ofZ 5))]) JNull
  = Normal (invalid "Invalid input. Please provide an array of skills.").
Proof. apply not_an_array_rejected. discriminate. Defined.

(** ** The parser: trimming, blank lines, missing labels *)

Section Trimming.

Implicit Types s u : jsstring.

Lemma trimStart_headClean s : headClean (trimStart s) = true.
Proof.
  induction s as [|c s IH]; [reflexivity|].
  cbn [trimStart]. destruct (isWhiteSpace c) eqn:E; [exact IH|].
  cbn. now rewrite E.
Qed.

Lemma headClean_trimStart s : headClean s = true -> trimStart s = s.
Proof.
  destruct s as [|c s]; [reflexivity|]. cbn. intros H.
  apply negb_true_iff in H. now rewrite H.
Qed.

Lemma trimEnd_snoc u c :
  trimEnd (u ++ [c]) = if isWhiteSpace c then trimEnd u else u ++ [c].
Proof.
  unfold trimEnd. rewrite rev_app_distr. cbn [rev app trimStart].
  destruct (isWhiteSpace c); [reflexivity|].
  cbn [rev]. now rewrite rev_involutive.
Qed.

Lemma trimEnd_headClean u : headClean u = true -> headClean (trimEnd u) = true.
Proof.
  induction u as [|c u IH] using rev_ind; [reflexivity|].
  intros H. rewrite trimEnd_snoc. destruct (isWhiteSpace c); [|exact H].
  apply IH. destruct u; [reflexivity | exact H].
Qed.

Lemma trimEnd_idempotent u : trimEnd (trimEnd u) = trimEnd u.
Proof.
  unfold trimEnd. rewrite rev_involutive.
  now rewrite headClean_trimStart by apply trimStart_headClean.
Qed.

(** Trimming twice is trimming once. *)
Lemma trim_idempotent s : trim (trim s) = trim s.
Proof.
  unfold trim.
  rewrite (headClean_trimStart (trimEnd (trimStart s)))
    by apply trimEnd_headClean, trimStart_headClean.
  apply trimEnd_idempotent.
Qed.

End Trimming.

Lemma scan_trimmed lines st c :
  (forall d, trim (getField d st) = getField d st) ->
  trim (getField c (fold_left scanLine lines st)) = getField c (fold_left scanLine lines st).
Proof.
  revert st. induction lines as [|l lines IH]; intros st H; [apply H|].
  cbn [fold_left]. apply IH. intros d. rewrite scanLine_firstMatch.
  destruct (firstMatch l) as [k|]; [|apply H].
  destruct (sameCategory k d) eqn:E.
  - assert (k = d) by (destruct k, d; try discriminate; reflexivity). subst k.
    rewrite getField_setField_same. destruct d; apply trim_idempotent.
  - rewrite getField_setField_other by (intros ->; destruct k; discriminate).
    apply H.
Qed.

(** X9. No field of the result starts or ends with white space: each is
    equal to its own trimmed form, for every input text. *)
Theorem parse_fields_trimmed text c :
  trim (getField c (parseFeedbackResponse text)) = getField c (parseFeedbackResponse text).
Proof.
  rewrite parse_field.
  assert (Hd : trim (defaultOf c) = defaultOf c) by (destruct c; vm_compute; reflexivity).
  assert (Hf : trim (getField c (fallback text (scanLines (nonBlankLines text))))
               = getField c (fallback text (scanLines (nonBlankLines text)))).
  { unfold fallback. destruct (allUnset _).
    - destruct (sections text) as [|s0 [|s1 [|s2 more]]];
        destruct c; cbn [getField topStrengths practicalExperience domainKnowledge];
        try apply trim_idempotent; vm_compute; reflexivity.
    - apply scan_trimmed. intros []; reflexivity. }
  unfold orElse. now destruct (isEmpty _).
Qed.

(** X10. When no line is matched to a category and the scan finds text for
    another one, the category gets its canned sentence. *)
Theorem unlabelled_category_defaults text c :
  (forall l, In l (nonBlankLines text) -> firstMatch l <> Some c) ->
  allUnset (scanLines (nonBlankLines text)) = false ->
  getField c (parseFeedbackResponse text) = defaultOf c.
Proof.
  intros Hnone Hset. rewrite parse_field, fallback_set by assumption.
  unfold scanLines. rewrite scan_others by assumption. now destruct c.
Qed.

Lemma unlabelled_category_defaults_witness :
  domainKnowledge
    (parseFeedbackResponse
       (unlines [str "Top Strengths: Go"; str "Practical Experience: two services"]))
  = DEFAULT_DOMAIN.
Proof.
  apply (@unlabelled_category_defaults _ DomainKnowledge).
  - intros l Hl. vm_compute in Hl. destruct Hl as [<-|[<-|[]]]; vm_compute; discriminate.
  - vm_compute. reflexivity.
Defined.

(** X11. A reply in which no field is found by the scan and which the
    fallback cuts into fewer than three fragments yields the three canned
    sentences; so does, in particular, a reply without any label and without
    three fragments. *)
Theorem few_fragments_all_defaults text :
  allUnset (scanLines (nonBlankLines text)) = true
  \/ (forall l, In l (nonBlankLines text) -> firstMatch l = None) ->
  (List.length (sections text) < 3)%nat ->
  parseFeedbackResponse text = mkFeedback DEFAULT_TOP DEFAULT_PRACTICAL DEFAULT_DOMAIN.
Proof.
  intros H Hfew.
  assert (Hu : allUnset (scanLines (nonBlankLines text)) = true)
    by (destruct H as [H|H]; [exact H | now apply unmatched_allUnset]).
  unfold parseFeedbackResponse, fallback. rewrite Hu.
  destruct (sections text) as [|s0 [|s1 [|s2 more]]];
    try (simpl in Hfew; lia); reflexivity.
Qed.

Lemma few_fragments_all_defaults_witness :
  parseFeedbackResponse (str "The candidate is strong. 1. Go is the best skill.")
  = mkFeedback DEFAULT_TOP DEFAULT_PRACTICAL DEFAULT_DOMAIN.
Proof.
  apply few_fragments_all_defaults.
  - right. intros l Hl. vm_compute in Hl. destruct Hl as [<-|[]]. vm_compute. reflexivity.
  - vm_compute. lia.
Defined.

(** ** Blank lines *)

Lemma split_newlineFree s : newlineFree s = true -> split NEWLINE s = [s].
Proof.
  induction s as [|c s IH]; [reflexivity|].
  cbn [newlineFree forallb]. intros H. apply andb_prop in H as [Hc Hs].
  cbn [split]. apply negb_true_iff in Hc. rewrite Hc.
  unfold newlineFree in IH. now rewrite IH.
Qed.

Lemma split_app_newline s rest :
  newlineFree s = true -> split NEWLINE (s ++ NEWLINE :: rest) = s :: split NEWLINE rest.
Proof.
  induction s as [|c s IH].
  - intros _. cbn [app split]. now rewrite N.eqb_refl.
  - cbn [newlineFree forallb]. intros H. apply andb_prop in H as [Hc Hs].
    cbn [app split]. apply negb_true_iff in Hc. rewrite Hc.
    unfold newlineFree in IH. now rewrite IH.
Qed.

(** Splitting what was joined by newlines gives the lines back. *)
Lemma split_unlines ls :
  ls <> [] -> forallb newlineFree ls = true -> split NEWLINE (unlines ls) = ls.
Proof.
  unfold unlines. induction ls as [|x ls IH]; [congruence|]. intros _.
  cbn [forallb]. intros H. apply andb_prop in H as [Hx Hls].
  destruct ls as [|y ls]; [now apply split_newlineFree|].
  change (join [NEWLINE] (x :: y :: ls)) with (x ++ NEWLINE :: join [NEWLINE] (y :: ls)).
  rewrite split_app_newline by assumption. f_equal. now apply IH.
Qed.

Lemma filter_idempotent {A : Type} (f : A -> bool) (l : list A) :
  filter f (filter f l) = filter f l.
Proof.
  induction l as [|x l IH]; [reflexivity|].
  cbn [filter]. destruct (f x) eqn:E; [|exact IH].
  cbn [filter]. now rewrite E, IH.
Qed.

Lemma same_lines_same_result t1 t2 :
  nonBlankLines t1 = nonBlankLines t2 ->
  allUnset (scanLines (nonBlankLines t1)) = false ->
  parseFeedbackResponse t1 = parseFeedbackResponse t2.
Proof.
  intros Heq Hset. unfold parseFeedbackResponse.
  rewrite (fallback_set t1), (fallback_set t2), Heq; congruence.
Qed.

(** X12. Blank lines do not count when the scan finds a field: a reply
    given line by line and the same reply without its empty and
    white-space-only lines parse alike. *)
Theorem blank_lines_ignored ls :
  forallb newlineFree ls = true ->
  allUnset (scanLines (filter (fun l => negb (isBlank l)) ls)) = false ->
  parseFeedbackResponse (unlines ls)
  = parseFeedbackResponse (unlines (filter (fun l => negb (isBlank l)) ls)).
Proof.
  intros Hnl Hset.
  set (kept := filter (fun l => negb (isBlank l)) ls) in *.
  assert (Hkept : kept <> []) by (intros E; rewrite E in Hset; discriminate).
  assert (Hls : ls <> []) by (intros E; apply Hkept; subst kept; now rewrite E).
  assert (Hknl : forallb newlineFree kept = true).
  { apply forallb_forall. intros l Hl. apply filter_In in Hl as [Hl _].
    rewrite forallb_forall in Hnl. now apply Hnl. }
  assert (H1 : nonBlankLines (unlines ls) = kept)
    by (unfold nonBlankLines; now rewrite split_unlines).
  assert (H2 : nonBlankLines (unlines kept) = kept).
  { unfold nonBlankLines. rewrite split_unlines by assumption.
    apply filter_idempotent. }
  apply same_lines_same_result; [congruence | now rewrite H1].
Qed.

Lemma blank_lines_ignored_witness :
  parseFeedbackResponse
    (unlines [[]; str "Top Strengths: Go"; str "  "; str "no label here"; []])
  = parseFeedbackResponse (unlines [str "Top Strengths: Go"; str "no label here"]).
Proof.
  apply (@blank_lines_ignored
           [[]; str "Top Strengths: Go"; str "  "; str "no label here"; []]);
    vm_compute; reflexivity.
Defined.

(** ** [SkillsFeedback]: what escapes, what is sent, what comes back *)

Lemma afterFetch_replyText outcome :
  match replyText outcome with
  | Some text => (response <- outcome ;; afterFetch response) = Normal (successResponse text)
  | None => exists e, (response <- outcome ;; afterFetch response) = Throw e
  end.
Proof.
  destruct outcome as [response|e]; [|cbn; eauto].
  cbn [replyText bind]. destruct (ok response) eqn:Eok;
    [|now apply afterFetch_not_ok].
  unfold afterFetch. rewrite Eok. cbn [negb].
  destruct (json response) as [data|e]; cbn [bind]; [|eauto].
  destruct (getProp data (str "choices")) as [choices|e]; cbn [bind]; [|eauto].
  destruct (getProp choices (str "0")) as [choice|e]; cbn [bind]; [|eauto].
  destruct (getProp choice (str "message")) as [reply|e]; cbn [bind]; [|eauto].
  destruct (getProp reply (str "content")) as [feedbackText|e]; cbn [bind]; [|eauto].
  destruct feedbackText; cbn [callParser bind]; eauto.
Qed.

(** The three ways a run ends. *)
Lemma SkillsFeedback_cases w skills overallComment :
  (exists e, validateInput skills overallComment = Throw e
             /\ SkillsFeedback w skills overallComment = (Throw e, []))
  \/ (exists v, validateInput skills overallComment = Normal v /\ isValid v = false
                /\ SkillsFeedback w skills overallComment
                   = (Normal (JObject [(str "success", JBool false);
                                       (str "error", message v)]), []))
  \/ (exists v elems comment typed,
         validateInput skills overallComment = Normal v /\ isValid v = true
         /\ skills = JArray elems /\ overallComment = JString comment
         /\ viewSkills elems = Some typed
         /\ let request := completionRequest w (prompt typed comment) in
            match replyText (fetch w request) with
            | Some text =>
                SkillsFeedback w skills overallComment
                = (Normal (successResponse text), [CallFetch request])
            | None =>
                exists e,
                  SkillsFeedback w skills overallComment
                  = (Normal failureResponse,
                     [CallFetch request;
                      ConsoleError (str "Error generating feedback:") e])
            end).
Proof.
  destruct (validateInput skills overallComment) as [v|e] eqn:Ev.
  - destruct (isValid v) eqn:Hv.
    + right. right.
      destruct (SkillsFeedback_accepted w _ _ Ev Hv)
        as (elems & comment & typed & -> & -> & Ht & Heq).
      exists v, elems, comment, typed. repeat split; try assumption.
      cbv zeta in Heq |- *. rewrite Heq.
      pose proof (afterFetch_replyText
                    (fetch w (completionRequest w (prompt typed comment)))) as Hr.
      destruct (replyText _) as [text|].
      * now rewrite Hr.
      * destruct Hr as [e ->]. now exists e.
    + right. left. exists v. repeat split; try assumption.
      now apply SkillsFeedback_rejected.
  - left. exists e. split; [reflexivity|]. unfold SkillsFeedback. now rewrite Ev.
Qed.

(** X13. The only exception that leaves [SkillsFeedback] is the one the
    validator throws: it throws exactly when [validateInput] does, the same
    exception, and then no request was sent and nothing was logged. Nothing
    the completion service does makes it throw. *)
Theorem only_the_validator_throws w skills overallComment e :
  (fst (SkillsFeedback w skills overallComment) = Throw e
   <-> validateInput skills overallComment = Throw e)
  /\ (fst (SkillsFeedback w skills overallComment) = Throw e ->
      snd (SkillsFeedback w skills overallComment) = []).
Proof.
  destruct (SkillsFeedback_cases w skills overallComment)
    as [(e' & Hv & ->)|[(v & Hv & _ & ->)|(v & elems & comment & typed & Hv & _ & _ & _ & _ & H)]].
  - cbn [fst snd]. rewrite Hv. repeat split; auto; intros [= ->]; reflexivity.
  - cbn [fst snd]. rewrite Hv. repeat split; intros; discriminate.
  - cbv zeta in H. rewrite Hv. destruct (replyText _).
    + rewrite H. cbn [fst snd]. repeat split; intros; discriminate.
    + destruct H as [e' ->]. cbn [fst snd]. repeat split; intros; discriminate.
Qed.

Lemma only_the_validator_throws_witness :
  fst (SkillsFeedback (stubbedWorld JUndefined (Throw FetchError))
         (JArray [skillObject "Go" (Num.ofZ 5); JUndefined]) sampleComment)
  = Throw TypeError.
Proof.
  apply (proj1 (@only_the_validator_throws _ _ _ TypeError)). reflexivity.
Defined.

(** X14. A run sends at most one request, and sends one exactly when the
    validator accepted the input: there is no retry and no call on a
    rejected input. The request is a POST to the chat-completions URL with
    the bearer key of the environment (the text undefined when the key is
    not set), the model mistral-small-latest, a system and a user message,
    temperature 0.7 and at most 500 tokens. *)
Theorem at_most_one_call w skills overallComment :
  (List.length (fetchCalls (snd (SkillsFeedback w skills overallComment))) <= 1)%nat
  /\ (fetchCalls (snd (SkillsFeedback w skills overallComment)) <> []
      <-> exists v, validateInput skills overallComment = Normal v /\ isValid v = true)
  /\ (forall request,
         In request (fetchCalls (snd (SkillsFeedback w skills overallComment))) ->
         url request = str "https://api.mistral.ai/v1/chat/completions"
         /\ method request = str "POST"
         /\ contentType request = str "application/json"
         /\ authorization request = str "Bearer " ++ toStringJS (MISTRAL_API_KEY w)
         /\ model request = str "mistral-small-latest"
         /\ map role (messages request) = [str "system"; str "user"]
         /\ temperature request = Num.div (Num.ofZ 7) (Num.ofZ 10)
         /\ max_tokens request = Num.ofZ 500).
Proof.
  destruct (SkillsFeedback_cases w skills overallComment)
    as [(e' & Hv & ->)|[(v & Hv & Hi & ->)|(v & elems & comment & typed & Hv & Hi & _ & _ & _ & H)]].
  - cbn [snd fetchCalls flat_map List.length]. rewrite Hv.
    split; [lia|]. split; [|intros r []].
    split; [congruence | intros (v & [=] & _)].
  - cbn [snd fetchCalls flat_map List.length]. rewrite Hv.
    split; [lia|]. split; [|intros r []].
    split; [congruence | intros (v' & [= <-] & Hv'); congruence].
  - cbv zeta in H.
    assert (Hcalls : fetchCalls (snd (SkillsFeedback w skills overallComment))
                     = [completionRequest w (prompt typed comment)]).
    { destruct (replyText _); [now rewrite H|]. destruct H as [e ->]. reflexivity. }
    rewrite Hcalls. split; [cbn; lia|]. split.
    + split; [intros _; eauto | discriminate].
    + intros r [<-|[]]. repeat split.
Qed.

Lemma at_most_one_call_witness :
  fetchCalls (snd (SkillsFeedback (stubbedWorld JUndefined (Normal unavailable))
                     sampleSkills sampleComment)) <> [].
Proof.
  apply (proj1 (proj2 (@at_most_one_call (stubbedWorld JUndefined (Normal unavailable))
                         sampleSkills sampleComment))).
  exists (mkValidation true JUndefined). split; [vm_compute; reflexivity | reflexivity].
Defined.

(** X15. On an accepted input the reply alone decides the outcome: success
    true with the parsed feedback when the call answers with a status from
    200 to 299, a JSON body and a string at choices[0].message.content; in
    every other case (the call throws, another status, a body that is not
    JSON, no choices, a content that is not a string) the fixed failure
    object. *)
Theorem reply_decides_outcome w skills overallComment v :
  validateInput skills overallComment = Normal v -> isValid v = true ->
  exists request,
    fetchCalls (snd (SkillsFeedback w skills overallComment)) = [request]
    /\ fst (SkillsFeedback w skills overallComment)
       = Normal (match replyText (fetch w request) with
                 | Some text => successResponse text
                 | None => failureResponse
                 end).
Proof.
  intros Hv Hi.
  destruct (SkillsFeedback_cases w skills overallComment)
    as [(e' & Hv' & _)|[(v' & Hv' & Hi' & _)|(v' & elems & comment & typed & _ & _ & _ & _ & _ & H)]];
    try congruence.
  cbv zeta in H. exists (completionRequest w (prompt typed comment)).
  destruct (replyText _); [now rewrite H|]. destruct H as [e ->]. now split.
Qed.

Lemma reply_decides_outcome_witness :
  fst (SkillsFeedback
         (stubbedWorld JUndefined (Normal (mkResponse 200 (str "OK") (Normal (JObject [])))))
         sampleSkills sampleComment)
  = Normal failureResponse.
Proof.
  destruct (@reply_decides_outcome
              (stubbedWorld JUndefined (Normal (mkResponse 200 (str "OK") (Normal (JObject [])))))
              sampleSkills sampleComment (mkValidation true JUndefined))
    as (request & _ & ->); [vm_compute; reflexivity | reflexivity | reflexivity].
Defined.

(** X16. Whenever the value [SkillsFeedback] returns has a feedback
    property, that property is an object with the three fields Top_strength,
    practical_Experience and DOmain_Knowledge, each a non-empty string:
    parsed text, a canned sentence, or the unavailability sentence. *)
Theorem feedback_always_populated w skills overallComment result feedback :
  fst (SkillsFeedback w skills overallComment) = Normal result ->
  getProp result (str "feedback") = Normal feedback ->
  feedback <> JUndefined ->
  exists top practical domain,
    feedback = JObject [(str "Top_strength", JString top);
                        (str "practical_Experience", JString practical);
                        (str "DOmain_Knowledge", JString domain)]
    /\ top <> [] /\ practical <> [] /\ domain <> [].
Proof.
  intros Hres Hget Hdef.
  destruct (SkillsFeedback_cases w skills overallComment)
    as [(e' & _ & Heq)|[(v & _ & _ & Heq)|(v & elems & comment & typed & _ & _ & _ & _ & _ & H)]].
  - rewrite Heq in Hres. discriminate.
  - rewrite Heq in Hres. injection Hres as <-.
    change (Normal JUndefined = Normal feedback) in Hget. congruence.
  - cbv zeta in H. destruct (replyText _) as [text|].
    + rewrite H in Hres. injection Hres as <-.
      change (Normal (feedbackObject (topStrengths (parseFeedbackResponse text))
                        (practicalExperience (parseFeedbackResponse text))
                        (domainKnowledge (parseFeedbackResponse text)))
              = Normal feedback) in Hget.
      injection Hget as <-. do 3 eexists. split; [reflexivity|].
      cbn [parseFeedbackResponse topStrengths practicalExperience domainKnowledge].
      repeat split; apply orElse_nonempty.
      * apply (DEFAULT_nonempty TopStrengths).
      * apply (DEFAULT_nonempty PracticalExperience).
      * apply (DEFAULT_nonempty DomainKnowledge).
    + destruct H as [e H]. rewrite H in Hres. injection Hres as <-.
      change (Normal (feedbackObject UNABLE UNABLE UNABLE) = Normal feedback) in Hget.
      injection Hget as <-. do 3 eexists. split; [reflexivity|].
      repeat split; discriminate.
Qed.

Lemma feedback_always_populated_witness :
  exists top practical domain,
    feedbackObject (str "A") (str "B") (str "C")
    = JObject [(str "Top_strength", JString top);
               (str "practical_Experience", JString practical);
               (str "DOmain_Knowledge", JString domain)]
    /\ top <> [] /\ practical <> [] /\ domain <> [].
Proof.
  apply (@feedback_always_populated
           (stubbedWorld (JString (str "key")) (Normal labelledReply))
           sampleSkills sampleComment
           (JObject [(str "success", JBool true);
                     (str "feedback", feedbackObject (str "A") (str "B") (str "C"))])).
  - vm_compute. reflexivity.
  - reflexivity.
  - discriminate.
Defined.

(** X17. [console.error] is called in the catch block and nowhere else:
    something is logged exactly when the run returns the failure object, and
    what is logged then comes after the request. A rejected input and a
    successful run log nothing. *)
Theorem logs_exactly_on_failure w skills overallComment :
  ((exists label e, In (ConsoleError label e) (snd (SkillsFeedback w skills overallComment)))
   <-> fst (SkillsFeedback w skills overallComment) = Normal failureResponse)
  /\ (forall label e,
         In (ConsoleError label e) (snd (SkillsFeedback w skills overallComment)) ->
         label = str "Error generating feedback:"
         /\ exists request,
              snd (SkillsFeedback w skills overallComment)
              = [CallFetch request; ConsoleError label e]).
Proof.
  destruct (SkillsFeedback_cases w skills overallComment)
    as [(e' & _ & ->)|[(v & _ & _ & ->)|(v & elems & comment & typed & _ & _ & _ & _ & _ & H)]].
  - cbn [fst snd]. split; [split|]; [intros (l & e & []) | discriminate | intros l e []].
  - cbn [fst snd]. split; [split|]; [intros (l & e & []) | discriminate | intros l e []].
  - cbv zeta in H. destruct (replyText _) as [text|].
    + rewrite H. cbn [fst snd]. split; [split|].
      * intros (l & e & [Hin|[]]). discriminate Hin.
      * unfold successResponse, failureResponse. intros [=].
      * intros l e [Hin|[]]. discriminate Hin.
    + destruct H as [e ->]. cbn [fst snd]. split; [split|].
      * reflexivity.
      * intros _. do 2 eexists. right. now left.
      * intros l e' [Hin|[Hin|[]]]; [discriminate Hin|].
        injection Hin as <- <-. split; [reflexivity|]. eauto.
Qed.

Lemma logs_exactly_on_failure_witness :
  exists label e,
    In (ConsoleError label e)
       (snd (SkillsFeedback (stubbedWorld JUndefined (Throw FetchError))
               sampleSkills sampleComment)).
Proof.
  apply (proj1 (@logs_exactly_on_failure (stubbedWorld JUndefined (Throw FetchError))
                  sampleSkills sampleComment)).
  vm_compute. reflexivity.
Defined.

(** ** The prompt's statistics and skill lines *)

Lemma high_and_low_exclusive (r : Num.number) :
  Num.ge r (Num.ofZ 4) = true -> Num.le r (Num.ofZ 2) = false.
Proof.
  unfold Num.ge, Num.le, SFleb.
  change (Num.ofZ 4) with (S754_finite false 4503599627370496 (-50)).
  change (Num.ofZ 2) with (S754_finite false 4503599627370496 (-51)).
  destruct r as [s|s| |s m e]; try discriminate.
  - destruct s; [discriminate | reflexivity].
  - destruct s; [discriminate|]. cbn [SFcompare].
    destruct (Z.compare_spec (-50) e), (Z.compare_spec e (-51));
      try lia; try discriminate; reflexivity.
Qed.

(** X18. The two counts of the statistical overview never share a skill:
    high performing and needing development together do not exceed the
    number of skills. *)
Theorem counts_do_not_overlap (skills : list Skill) :
  (highRatedSkills skills + lowRatedSkills skills <= List.length skills)%nat.
Proof.
  unfold highRatedSkills, lowRatedSkills.
  induction skills as [|skill skills IH]; [reflexivity|].
  cbn [filter]. pose proof (high_and_low_exclusive (rating skill)) as Hx.
  destruct (Num.ge (rating skill) (Num.ofZ 4)).
  - rewrite Hx by reflexivity. cbn [List.length]. lia.
  - destruct (Num.le (rating skill) (Num.ofZ 2)); cbn [List.length]; lia.
Qed.

Section SkillLines.

Lemma newlineFree_app a b :
  newlineFree a = true -> newlineFree b = true -> newlineFree (a ++ b) = true.
Proof.
  unfold newlineFree. intros Ha Hb. rewrite forallb_app.
  apply andb_true_intro. now split.
Qed.

Lemma newlineFree_firstn n a : newlineFree a = true -> newlineFree (firstn n a) = true.
Proof.
  unfold newlineFree. rewrite !forallb_forall. intros H c Hc.
  apply H. rewrite <- (firstn_skipn n a). apply in_or_app. now left.
Qed.

Lemma newlineFree_skipn n a : newlineFree a = true -> newlineFree (skipn n a) = true.
Proof.
  unfold newlineFree. rewrite !forallb_forall. intros H c Hc.
  apply H. rewrite <- (firstn_skipn n a). apply in_or_app. now right.
Qed.

Lemma newlineFree_zeros n : newlineFree (Num.zeros n) = true.
Proof.
  unfold Num.zeros. induction (Z.to_nat n) as [|k IH]; [reflexivity|]. exact IH.
Qed.

Lemma newlineFree_digits u : newlineFree (str (NilEmpty.string_of_uint u)) = true.
Proof. induction u; [reflexivity| exact IHu ..]. Qed.

Lemma newlineFree_decimal z : newlineFree (Num.decimal z) = true.
Proof.
  unfold Num.decimal, NilZero.string_of_uint.
  destruct (N.to_uint (Z.to_N z)) eqn:E; try reflexivity;
    rewrite <- E; apply newlineFree_digits.
Qed.

Ltac newline_free :=
  repeat first
    [ assumption
    | apply newlineFree_decimal
    | apply newlineFree_zeros
    | apply newlineFree_firstn
    | apply newlineFree_skipn
    | apply newlineFree_app
    | reflexivity ].

(** A rendered number has no line break in it. *)
Lemma newlineFree_toString x : newlineFree (Num.toString x) = true.
Proof.
  unfold Num.toString. destruct x as [s|s| |sign m e]; try reflexivity.
  - destruct s; reflexivity.
  - cbv zeta.
    destruct (Num.shortest 17 m e (Num.decimalExponent 700 (-330) (Num.valueOf m e)) 1)
      as [[s n] k].
    destruct sign;
      repeat match goal with
             | |- context [if ?c then _ else _] => destruct c
             end;
      newline_free.
Qed.

Lemma newlineFree_skillLine index skill :
  newlineFree (name skill) = true -> newlineFree (skillLine index skill) = true.
Proof.
  intros H. unfold skillLine.
  pose proof (newlineFree_toString (rating skill)).
  pose proof (newlineFree_toString (Num.add (Num.ofZ (Z.of_nat index)) (Num.ofZ 1))).
  newline_free.
Qed.

Lemma newlineFree_skillLines index skills :
  forallb (fun skill => newlineFree (name skill)) skills = true ->
  forallb newlineFree (mapIndexed skillLine index skills) = true.
Proof.
  revert index. induction skills as [|skill skills IH]; intros index; [reflexivity|].
  cbn [forallb mapIndexed]. intros H. apply andb_prop in H as [Hs Hl].
  now rewrite newlineFree_skillLine, IH.
Qed.

Lemma mapIndexed_length {A B : Type} (f : nat -> A -> B) index l :
  List.length (mapIndexed f index l) = List.length l.
Proof.
  revert index. induction l as [|x l IH]; intros index; [reflexivity|].
  cbn [mapIndexed List.length]. now rewrite IH.
Qed.

End SkillLines.

(** X19. When no skill name contains a line break, the skills section of
    the prompt has exactly one line per skill, in order: splitting it at
    the line breaks gives back the rendered skill lines. *)
Theorem one_line_per_skill skills :
  skills <> [] ->
  forallb (fun skill => newlineFree (name skill)) skills = true ->
  split NEWLINE (skillsText skills) = mapIndexed skillLine 0 skills
  /\ List.length (split NEWLINE (skillsText skills)) = List.length skills.
Proof.
  intros Hne Hnames.
  assert (Hsplit : split NEWLINE (skillsText skills) = mapIndexed skillLine 0 skills).
  { apply split_unlines.
    - destruct skills; [congruence | discriminate].
    - now apply newlineFree_skillLines. }
  split; [exact Hsplit|]. rewrite Hsplit. apply mapIndexed_length.
Qed.

Lemma one_line_per_skill_witness :
  List.length
    (split NEWLINE
       (skillsText [mkSkill (str "Go") (Num.ofZ 5);
                    mkSkill (str "SQL") (Num.div (Num.ofZ 5) (Num.ofZ 2))]))
  = 2%nat.
Proof.
  apply (@one_line_per_skill [mkSkill (str "Go") (Num.ofZ 5);
                              mkSkill (str "SQL") (Num.div (Num.ofZ 5) (Num.ofZ 2))]);
    [discriminate | reflexivity].
Defined.

(** ** The POST handler *)

(** X20. The handler answers 500 exactly when the validator throws: the
    body is then the internal-error object with the time stamp, the
    exception is logged as API Error: and no request was sent. In every
    other case it answers 200 with what [SkillsFeedback] returned, a
    rejected input and a failed completion call included. *)
Theorem post_status w now reqBody skills overallComment :
  getProp reqBody (str "skills") = Normal skills ->
  getProp reqBody (str "overallComment") = Normal overallComment ->
  match validateInput skills overallComment with
  | Throw e =>
      postSkillsFeedback w now reqBody
      = (Normal (mkHttp 500 (internalError now)), [ConsoleError (str "API Error:") e])
  | Normal _ =>
      exists result,
        fst (SkillsFeedback w skills overallComment) = Normal result
        /\ postSkillsFeedback w now reqBody
           = (Normal (mkHttp 200 result), snd (SkillsFeedback w skills overallComment))
  end.
Proof.
  intros Hs Hc. unfold postSkillsFeedback. rewrite Hs, Hc. cbn [bind].
  destruct (SkillsFeedback_cases w skills overallComment)
    as [(e' & Hv & ->)|[(v & Hv & _ & ->)|(v & elems & comment & typed & Hv & _ & _ & _ & _ & H)]];
    rewrite Hv.
  - reflexivity.
  - eexists. split; reflexivity.
  - cbv zeta in H. destruct (replyText _).
    + rewrite H. eexists. split; reflexivity.
    + destruct H as [e ->]. eexists. split; reflexivity.
Qed.

Lemma post_status_witness :
  postSkillsFeedback (stubbedWorld JUndefined (Normal labelledReply)) (str "2026-01-01T00:00:00Z")
    (JObject [(str "skills", JArray [JNull]); (str "overallComment", sampleComment)])
  = (Normal (mkHttp 500 (internalError (str "2026-01-01T00:00:00Z"))),
     [ConsoleError (str "API Error:") TypeError]).
Proof.
  apply (@post_status _ _ _ (JArray [JNull]) sampleComment); reflexivity.
Defined.

(** X21. The handler itself throws in one case only, a request body that is
    undefined or null: the destructuring stands before the [try], so that
    nothing is answered and nothing is logged. For every other body it
    answers. *)
Theorem post_throws_iff w now reqBody e :
  fst (postSkillsFeedback w now reqBody) = Throw e
  <-> isNullish reqBody = true /\ e = TypeError.
Proof.
  unfold postSkillsFeedback.
  rewrite (getProp_nullish reqBody (str "skills")).
  rewrite (getProp_nullish reqBody (str "overallComment")).
  destruct (isNullish reqBody); cbn [bind fst].
  - split; [intros [= <-]; now split | intros [_ ->]; reflexivity].
  - destruct (SkillsFeedback _ _ _) as [[result|error] trace]; cbn [fst];
      split; try discriminate; intros [[=] _].
Qed.

Lemma post_throws_iff_witness :
  fst (postSkillsFeedback (stubbedWorld JUndefined (Throw FetchError)) [] JUndefined)
  = Throw TypeError.
Proof. apply post_throws_iff. now split. Defined.

(** X22. A body without a usable skills list is answered 200 with the
    skills' message and without any request: a missing skills key, null, a
    number, a string, an object or an empty array, whatever the rest of the
    body holds. *)
Theorem post_without_skills w now reqBody skills :
  getProp reqBody (str "skills") = Normal skills ->
  (forall skill rest, skills <> JArray (skill :: rest)) ->
  postSkillsFeedback w now reqBody
  = (Normal (mkHttp 200
               (JObject [(str "success", JBool false);
                         (str "error",
                          JString (str "Invalid input. Please provide an array of skills."))])),
     []).
Proof.
  intros Hs Hshape. unfold postSkillsFeedback. rewrite Hs.
  rewrite (getProp_nullish reqBody (str "overallComment")).
  assert (Hn : isNullish reqBody = false) by (destruct reqBody; try reflexivity; discriminate Hs).
  rewrite Hn. cbn [bind].
  set (overallComment := match getProp reqBody (str "overallComment") with
                         | Normal x => x
                         | Throw _ => JUndefined
                         end).
  assert (Hv : validateInput skills overallComment
               = Normal (invalid "Invalid input. Please provide an array of skills.")).
  { rewrite validateInput_checks.
    destruct skills as [| | | | |[|skill rest]|]; try reflexivity.
    now destruct (Hshape skill rest). }
  rewrite (SkillsFeedback_rejected w _ _ Hv) by reflexivity. reflexivity.
Qed.

Lemma post_without_skills_witness :
  postSkillsFeedback (stubbedWorld JUndefined (Normal labelledReply)) []
    (JObject [(str "overallComment", sampleComment)])
  = (Normal (mkHttp 200
               (JObject [(str "success", JBool false);
                         (str "error",
                          JString (str "Invalid input. Please provide an array of skills."))])),
     []).
Proof.
  apply (@post_without_skills _ _ _ JUndefined); [reflexivity | discriminate].
Defined.

(** ** The parser invents nothing *)

Section Provenance.

Implicit Types a b c s t : jsstring.

Lemma Subseq_refl a : Subseq a a.
Proof. induction a; constructor; assumption. Qed.

Lemma Subseq_empty b : Subseq [] b.
Proof. induction b; constructor; assumption. Qed.

Lemma Subseq_trans a b c : Subseq a b -> Subseq b c -> Subseq a c.
Proof.
  intros Hab Hbc. revert a Hab.
  induction Hbc as [|x b c Hbc IH|x b c Hbc IH]; intros a Hab.
  - exact Hab.
  - inversion Hab; subst.
    + apply Subseq_keep, IH. assumption.
    + apply Subseq_drop, IH. assumption.
  - apply Subseq_drop, IH, Hab.
Qed.

Lemma Subseq_app a b c d : Subseq a b -> Subseq c d -> Subseq (a ++ c) (b ++ d).
Proof.
  intros Hab Hcd. induction Hab; cbn [app]; try (constructor; assumption).
  exact Hcd.
Qed.

Lemma Subseq_suffix pre t : Subseq t (pre ++ t).
Proof. apply (Subseq_app (Subseq_empty pre) (Subseq_refl t)). Qed.

Lemma Subseq_prefix p t : Subseq p (p ++ t).
Proof.
  rewrite <- (app_nil_r p) at 1. apply Subseq_app; [apply Subseq_refl | apply Subseq_empty].
Qed.

Lemma Subseq_rev a b : Subseq a b -> Subseq (rev a) (rev b).
Proof.
  induction 1 as [|x a b H IH|x a b H IH]; cbn [rev].
  - constructor.
  - apply Subseq_app; [exact IH | apply Subseq_refl].
  - rewrite <- (app_nil_r (rev a)). apply Subseq_app; [exact IH | apply Subseq_empty].
Qed.

Lemma Subseq_newlineFree a b : Subseq a b -> newlineFree b = true -> newlineFree a = true.
Proof.
  unfold newlineFree. induction 1 as [|x a b H IH|x a b H IH]; cbn [forallb]; intros Hb.
  - reflexivity.
  - apply andb_prop in Hb as [Hx Hb]. now rewrite Hx, IH.
  - apply andb_prop in Hb as [_ Hb]. now apply IH.
Qed.

Lemma trimStart_Subseq s : Subseq (trimStart s) s.
Proof.
  induction s as [|x s IH]; [constructor|].
  cbn [trimStart]. destruct (isWhiteSpace x); [now constructor | apply Subseq_refl].
Qed.

Lemma trim_Subseq s : Subseq (trim s) s.
Proof.
  unfold trim, trimEnd. apply Subseq_trans with (trimStart s); [|apply trimStart_Subseq].
  rewrite <- (rev_involutive (trimStart s)) at 2.
  apply Subseq_rev, trimStart_Subseq.
Qed.

Lemma replace_literal_Subseq w s : Subseq (replace (literal w) [] s) s.
Proof.
  induction s as [|x s IH]; cbn [replace]; rewrite execAt_literal.
  - destruct (wordAt w []); cbn [option_map app]; [|constructor].
    rewrite skipn_nil. constructor.
  - destruct (wordAt w (x :: s)) as [n|]; cbn [option_map app].
    + rewrite <- (firstn_skipn n (x :: s)) at 2. apply Subseq_suffix.
    + now constructor.
Qed.

Lemma extract_Subseq k line : Subseq (extract k line) line.
Proof.
  destruct k; unfold extract;
    (eapply Subseq_trans; [apply trim_Subseq|]);
    (eapply Subseq_trans; [apply replace_literal_Subseq|]);
    apply replace_literal_Subseq.
Qed.

Lemma split_Subseq sep s l : In l (split sep s) -> Subseq l s.
Proof.
  revert l. induction s as [|x s IH]; intros l; cbn [split].
  - intros [<-|[]]. constructor.
  - destruct (x =? sep)%N.
    + intros [<-|Hin]; [apply Subseq_empty | apply Subseq_drop, IH, Hin].
    + destruct (split sep s) as [|piece pieces].
      * intros [<-|[]]. apply Subseq_keep, Subseq_empty.
      * intros [<-|Hin].
        -- apply Subseq_keep, IH. now left.
        -- apply Subseq_drop, IH. now right.
Qed.

Lemma split_newlineFree_pieces s l : In l (split NEWLINE s) -> newlineFree l = true.
Proof.
  revert l. induction s as [|x s IH]; intros l; cbn [split].
  - intros [<-|[]]. reflexivity.
  - destruct (x =? NEWLINE)%N eqn:E.
    + intros [<-|Hin]; [reflexivity | now apply IH].
    + destruct (split NEWLINE s) as [|piece pieces].
      * intros [<-|[]]. cbn. now rewrite E.
      * intros [<-|Hin].
        -- cbn [newlineFree forallb]. rewrite E. cbn [negb andb].
           apply IH. now left.
        -- apply IH. now right.
Qed.

Lemma fragmentsFrom_Subseq skip cur s f :
  In f (fragmentsFrom skip cur s) -> Subseq f (cur ++ s).
Proof.
  revert skip cur. induction s as [|x s IH]; intros skip cur; cbn [fragmentsFrom].
  - intros [<-|[]]. rewrite app_nil_r. apply Subseq_refl.
  - destruct skip as [|k].
    + destruct (delimiterLength (x :: s)) as [n|].
      * intros [<-|Hin]; [apply Subseq_prefix|].
        apply Subseq_trans with (x :: s); [|apply Subseq_suffix].
        apply Subseq_drop. apply (IH _ [] Hin).
      * intros Hin. apply IH in Hin. now rewrite <- app_assoc in Hin.
    + intros Hin. apply IH in Hin.
      apply Subseq_trans with (cur ++ s); [exact Hin|].
      apply Subseq_app; [apply Subseq_refl | apply Subseq_drop, Subseq_refl].
Qed.

Lemma sections_Subseq text f : In f (sections text) -> Subseq f text.
Proof.
  unfold sections. rewrite splitRegex_fragments. intros Hin.
  apply filter_In in Hin as [Hin _]. apply (@fragmentsFrom_Subseq O [] text f Hin).
Qed.

(** After the scan a field is what it was, or what one of the lines gave. *)
Lemma scan_field_source k lines st :
  getField k (fold_left scanLine lines st) = getField k st
  \/ exists l, In l lines /\ getField k (fold_left scanLine lines st) = extract k l.
Proof.
  revert st. induction lines as [|l lines IH]; intros st; [now left|].
  cbn [fold_left]. destruct (IH (scanLine st l)) as [H|(l' & Hin & H)].
  - rewrite H, scanLine_firstMatch. destruct (firstMatch l) as [k'|]; [|now left].
    destruct (sameCategory k' k) eqn:E.
    + assert (k' = k) by (destruct k, k'; try discriminate; reflexivity). subst k'.
      right. exists l. split; [now left|]. apply getField_setField_same.
    + left. apply getField_setField_other. intros ->. destruct k'; discriminate.
  - right. exists l'. split; [now right | exact H].
Qed.

End Provenance.

(** X23. The parser invents nothing: each field of the result is its canned
    sentence, or is made of code units of the reply, in their order (the
    reply with some code units left out). *)
Theorem parser_invents_nothing text k :
  getField k (parseFeedbackResponse text) = defaultOf k
  \/ Subseq (getField k (parseFeedbackResponse text)) text.
Proof.
  rewrite parse_field. unfold orElse.
  destruct (isEmpty _) eqn:Ee; [now left|]. unfold fallback in *.
  destruct (allUnset (scanLines (nonBlankLines text))).
  - destruct (sections text) as [|s0 [|s1 [|s2 more]]] eqn:Es;
      try (left; destruct k; reflexivity).
    right.
    assert (Hin : forall f, In f [s0; s1; s2] -> Subseq (trim f) text).
    { intros f Hf. apply Subseq_trans with f; [apply trim_Subseq|].
      apply sections_Subseq. rewrite Es.
      destruct Hf as [<-|[<-|[<-|[]]]]; cbn; auto. }
    destruct k; cbn [getField topStrengths practicalExperience domainKnowledge];
      apply Hin; cbn; auto.
  - unfold scanLines in *.
    destruct (scan_field_source k (nonBlankLines text) initialScan) as [H|(l & Hin & H)].
    + rewrite H in Ee. destruct k; discriminate.
    + right. rewrite H. apply Subseq_trans with l; [apply extract_Subseq|].
      apply filter_In in Hin as [Hin _]. now apply split_Subseq with NEWLINE.
Qed.

(** X24. A field that the line scan found holds no line break: when the
    scan sets any field, all three fields of the result are single-line. *)
Theorem scanned_fields_single_line text k :
  allUnset (scanLines (nonBlankLines text)) = false ->
  newlineFree (getField k (parseFeedbackResponse text)) = true.
Proof.
  intros Hset. rewrite parse_field, fallback_set by assumption.
  unfold orElse. destruct (isEmpty _); [destruct k; reflexivity|].
  unfold scanLines.
  destruct (scan_field_source k (nonBlankLines text) initialScan) as [H|(l & Hin & H)].
  - rewrite H. destruct k; reflexivity.
  - rewrite H. apply Subseq_newlineFree with l; [apply extract_Subseq|].
    apply filter_In in Hin as [Hin _]. now apply split_newlineFree_pieces with text.
Qed.

Lemma scanned_fields_single_line_witness :
  newlineFree
    (topStrengths
       (parseFeedbackResponse (unlines [str "Top Strengths: Go"; str "and more text"])))
  = true.
Proof.
  apply (@scanned_fields_single_line _ TopStrengths). vm_compute. reflexivity.
Defined.

(** ** What the fallback never returns *)

Section DelimiterFree.

Implicit Types s u q more cur : jsstring.

Lemma wordAt_app w u more n : wordAt w u = Some n -> wordAt w (u ++ more) = Some n.
Proof.
  revert u n. induction w as [|a w IH]; intros u n; [now destruct u|].
  destruct u as [|b u]; [discriminate|]. cbn [app wordAt].
  destruct (sameLetter a b); [|discriminate].
  destruct (wordAt w u) as [k|] eqn:E; [|discriminate].
  intros [= <-]. now rewrite (@IH _ _ E).
Qed.

Lemma dropDigits_app s more :
  dropDigits s <> [] -> dropDigits (s ++ more) = dropDigits s ++ more.
Proof.
  induction s as [|c s IH]; [intros H; now destruct H|].
  cbn [app dropDigits]. destruct (isDigit c); [exact IH | reflexivity].
Qed.

Lemma numberPeriod_app u more n :
  numberPeriod u = Some n -> exists n', numberPeriod (u ++ more) = Some n'.
Proof.
  unfold numberPeriod. destruct u as [|c u]; [discriminate|]. cbn [app].
  destruct (isDigit c); [|discriminate].
  destruct (dropDigits u) as [|d rest] eqn:E; [discriminate|].
  rewrite dropDigits_app by congruence. rewrite E. cbn [app].
  destruct (d =? 46)%N; [eauto | discriminate].
Qed.

(** A delimiter at the start of a string is still one when text follows. *)
Lemma delimiterLength_app u more n :
  delimiterLength u = Some n -> exists n', delimiterLength (u ++ more) = Some n'.
Proof.
  unfold delimiterLength.
  destruct (numberPeriod u) as [k|] eqn:E0.
  { intros _. destruct (@numberPeriod_app u more k E0) as [k' ->]. eauto. }
  destruct (numberPeriod (u ++ more)); [eauto|].
  destruct (wordAt (str "TOP") u) as [k|] eqn:E1.
  { intros _. rewrite (@wordAt_app _ u more _ E1). eauto. }
  destruct (wordAt (str "TOP") (u ++ more)); [eauto|].
  destruct (wordAt (str "PRACTICAL") u) as [k|] eqn:E2.
  { intros _. rewrite (@wordAt_app _ u more _ E2). eauto. }
  destruct (wordAt (str "PRACTICAL") (u ++ more)); [eauto|].
  intros E3. rewrite (@wordAt_app _ u more _ E3). eauto.
Qed.

Lemma trimStart_decompose s : exists a, s = a ++ trimStart s.
Proof.
  induction s as [|c s [a IH]]; [now exists []|].
  cbn [trimStart]. destruct (isWhiteSpace c); [|now exists []].
  exists (c :: a). cbn [app]. now f_equal.
Qed.

Lemma trim_decompose s : exists a b, s = a ++ trim s ++ b.
Proof.
  destruct (trimStart_decompose s) as [a Ha].
  destruct (trimStart_decompose (rev (trimStart s))) as [b Hb].
  exists a, (rev b). unfold trim, trimEnd.
  rewrite <- rev_app_distr, <- Hb, rev_involutive. exact Ha.
Qed.

(** No delimiter starts inside a fragment: at each of its positions, read
    in the text, the scan saw none. *)
Lemma fragmentsFrom_clean skip cur s f :
  (forall p q, cur = p ++ q -> q <> [] -> delimiterLength (q ++ s) = None) ->
  skip = O \/ cur = [] ->
  In f (fragmentsFrom skip cur s) ->
  forall p q, f = p ++ q -> q <> [] -> exists rest, delimiterLength (q ++ rest) = None.
Proof.
  revert skip cur. induction s as [|x s IH]; intros skip cur Hinv Hskip; cbn [fragmentsFrom].
  - intros [<-|[]] p q Hf Hq. exists []. now apply Hinv with p.
  - destruct skip as [|k].
    + destruct (delimiterLength (x :: s)) as [n|] eqn:E.
      * intros [<-|Hin] p q Hf Hq.
        -- exists (x :: s). now apply Hinv with p.
        -- refine (IH (Nat.pred n) [] _ _ Hin p q Hf Hq); [|now right].
           intros p' q' Hnil. symmetry in Hnil. apply app_eq_nil in Hnil as [_ ->].
           congruence.
      * apply IH; [|now left].
        intros p q Hcur Hq.
        destruct (exists_last Hq) as (q0 & y & ->).
        rewrite app_assoc in Hcur. apply app_inj_tail in Hcur as [Hcur <-].
        rewrite <- app_assoc. cbn [app].
        destruct q0 as [|z q0]; [exact E|].
        apply Hinv with p; [exact Hcur | discriminate].
    + destruct Hskip as [Hk| ->]; [discriminate|].
      apply IH; [|now right].
      intros p' q' Hnil. symmetry in Hnil. apply app_eq_nil in Hnil as [_ ->].
      congruence.
Qed.

Lemma sections_clean text f pre suf :
  In f (sections text) -> trim f = pre ++ suf -> delimiterLength suf = None.
Proof.
  unfold sections. rewrite splitRegex_fragments. intros Hin Htrim.
  apply filter_In in Hin as [Hin _].
  destruct suf as [|c suf]; [reflexivity|].
  destruct (trim_decompose f) as (a & b & Hf). rewrite Htrim in Hf.
  assert (Hsplit : f = (a ++ pre) ++ ((c :: suf) ++ b))
    by (rewrite Hf, <- !app_assoc; reflexivity).
  destruct (@fragmentsFrom_clean O [] text f) with (p := a ++ pre) (q := (c :: suf) ++ b)
    as [rest Hnone]; auto.
  - intros p q Hnil. symmetry in Hnil. apply app_eq_nil in Hnil as [_ ->]. congruence.
  - discriminate.
  - destruct (delimiterLength (c :: suf)) as [n|] eqn:E; [|reflexivity].
    destruct (@delimiterLength_app _ (b ++ rest) _ E) as [n' Hn'].
    rewrite app_assoc in Hn'. congruence.
Qed.

End DelimiterFree.

(** X25. What the fallback split puts into the fields holds no delimiter:
    when the scan leaves all three fields empty and the split yields three
    fragments or more, no field of the result contains TOP, PRACTICAL or
    DOMAIN in any letter case, nor digits followed by a period, at any
    position. *)
Theorem fallback_fields_delimiter_free text k pre suf :
  allUnset (scanLines (nonBlankLines text)) = true ->
  (3 <= List.length (sections text))%nat ->
  getField k (parseFeedbackResponse text) = pre ++ suf ->
  delimiterLength suf = None.
Proof.
  intros Hunset Hlen. rewrite parse_field. unfold fallback. rewrite Hunset.
  assert (Hne : forall f, In f (sections text) -> trim f <> []).
  { intros f Hf. apply filter_In in Hf as [_ Hf].
    apply negb_true_iff in Hf. now apply isEmpty_false. }
  pose proof (@sections_clean text) as Hclean.
  destruct (sections text) as [|s0 [|s1 [|s2 more]]]; try (simpl in Hlen; lia).
  destruct k; cbn [getField topStrengths practicalExperience domainKnowledge];
    rewrite orElse_keep by (apply Hne; cbn; auto);
    intros Hsplit; eapply Hclean; try exact Hsplit; cbn; auto.
Qed.

Lemma fallback_fields_delimiter_free_witness :
  delimiterLength (str "lap") = None.
Proof.
  apply (@fallback_fields_delimiter_free
           (str "1. A laptop and a desk 2. Built two services 3. Needs depth")
           TopStrengths (str "A ") (str "lap")).
  - vm_compute. reflexivity.
  - vm_compute. lia.
  - vm_compute. reflexivity.
Defined.
